(** * MS5803-14BA pressure/temperature driver (src/src/MS5803.py)

    A shallow embedding of the MicroPython driver: the module-level unit
    conversions, the [MS5803] class with its properties, the calibration
    loader [_begin], the ADC conversion [_get_ADC_conversion] and the
    second-order compensation of [get_measurements].

    Python integers are unbounded, so they are embedded as [Z]; [>>] on a
    negative integer rounds toward negative infinity, as [Z.shiftr] does.
    Bus traffic and sleeps are recorded in a trace; exceptions leave the
    state as it was when they were raised. *)

From Stdlib Require Import ZArith String List Bool Lia.
From Stdlib Require Import Init.Byte.
From stdpp Require Import base option list gmap strings.

Local Open Scope string_scope.
Local Open Scope list_scope.
Local Open Scope Z_scope.

(** ** Values *)

(** [OSR = namedtuple('OSR', ('address', 'sampling_time'))] *)
Module OSR.
Record t : Type := make { address : Z; sampling_time : Z }.
End OSR.

(** The Python values that reach the driver's parameters and attributes. *)
Inductive pyval : Type :=
| PyNone
| PyInt (z : Z)
| PyStr (s : string)
| PyOSR (o : OSR.t).

(** Truth value of an object, as tested by [if value:] and [not value]. *)
Definition truthy (v : pyval) : bool :=
  match v with
  | PyNone => false
  | PyInt z => negb (z =? 0)
  | PyStr s => negb (String.eqb s EmptyString)
  | PyOSR _ => true
  end.

(** [v == 'literal'] *)
Definition eq_str (v : pyval) (lit : string) : bool :=
  match v with
  | PyStr s => String.eqb s lit
  | _ => false
  end.

(** [v in l] for a list of strings. *)
Definition in_strs (v : pyval) (l : list string) : bool :=
  existsb (eq_str v) l.

(** A number returned to the caller: an exact integer, or a float kept as
    the expression that computes it (true division and float arithmetic
    are not evaluated). *)
Inductive num : Type :=
| NInt (z : Z)
| NDiv (a b : num)
| NMul (a b : num)
| NAdd (a b : num).

Inductive exn : Type :=
| AssertionError
| AttributeError
| NameError
| IndexError
| KeyError
| OSError.

Inductive outcome (A : Type) : Type :=
| Return (a : A)
| Raise (e : exn).
Arguments Return {A} a.
Arguments Raise {A} e.

(** ** Module level *)

Definition TEMP_UNITS : list string := ["fahrenheit"; "celcius"].
Definition PRESSURE_UNITS : list string := ["pascals"; "bar"].

(** Names bound in the module's global namespace: line 5 imports only
    [sleep_ms] from [utime], so the name [utime] itself is not bound. *)
Definition module_globals : list string :=
  ["sleep_ms"; "namedtuple"; "OSR"; "TEMP_UNITS"; "PRESSURE_UNITS";
   "convert_temperature"; "convert_pressure"; "MS5803"].

Definition is_global (name : string) : bool :=
  existsb (String.eqb name) module_globals.

(** [convert_temperature(temp, units)]: when [units] is neither string the
    local [converted_temp] is read before assignment. *)
Definition convert_temperature (temp : Z) (units : pyval) : outcome num :=
  if eq_str units "fahrenheit" then
    let converted_temp := NDiv (NInt temp) (NInt 100) in
    Return (NAdd (NDiv (NMul converted_temp (NInt 9)) (NInt 5)) (NInt 32))
  else if eq_str units "celcius" then
    Return (NDiv (NInt temp) (NInt 100))
  else Raise NameError.

(** [convert_pressure(pressure, units)] *)
Definition convert_pressure (pressure : Z) (units : pyval) : outcome num :=
  if eq_str units "pascals" then
    Return (NDiv (NInt pressure) (NInt 10))
  else if eq_str units "bar" then
    Return (NDiv (NInt pressure) (NInt 10000))
  else Raise NameError.

(** ** Class constants *)

(** MicroPython's compiler records every [NAME = const(...)] of the file
    and replaces later occurrences of the bare name by the value, so the
    bare [CMD_ADC_CONV] of line 294 denotes [0x40]. *)
Definition CMD_RESET : Z := 0x1E.
Definition CMD_PROM : Z := 0xA0.
Definition CMD_ADC_CONV : Z := 0x40.
Definition CMD_ADC_READ : Z := 0x00.

Definition PRESSURE : Z := 0x00.
Definition TEMPERATURE : Z := 0x10.

Definition OSRs : gmap Z OSR.t :=
  list_to_map
    [ (256, OSR.make 0x00 1);
      (512, OSR.make 0x02 2);
      (1024, OSR.make 0x04 3);
      (2048, OSR.make 0x06 5);
      (4096, OSR.make 0x08 10) ].

(** [value in self.OSRs.keys()] and [self.OSRs[value]] *)
Definition OSRs_get (value : pyval) : option OSR.t :=
  match value with
  | PyInt z => OSRs !! z
  | _ => None
  end.

(** ** The bus, the session object and the state *)

Definition byte_val (b : byte) : Z := Z.of_N (Byte.to_N b).

Inductive event : Type :=
| EvWrite (addr memaddr : Z) (buf : list byte)
| EvRead (addr memaddr : Z) (nbytes : nat) (data : list byte)
| EvSleepMs (ms : Z)
| EvSleep (seconds : Z).

(** The [machine.I2C] object: what the device answers, given the traffic
    so far. [None] and [false] are a failed transaction ([OSError]). *)
Record I2C : Type := {
  readfrom_mem_reply : list event -> Z -> Z -> nat -> option (list byte);
  writeto_mem_ack : list event -> Z -> Z -> list byte -> bool
}.

(** The instance attributes; [None] is an attribute not assigned yet. *)
Record MS5803 : Type := {
  i2c : I2C;
  address : Z;
  C : option (list Z);
  _temp_units : option pyval;
  _pressure_units : option pyval;
  _temp_osr : option OSR.t;
  _pressure_osr : option OSR.t
}.

Record state : Type := { self : MS5803; trace : list event }.

Definition M (A : Type) : Type := state -> outcome A * state.

Definition ret {A} (a : A) : M A := fun s => (Return a, s).
Definition raise {A} (e : exn) : M A := fun s => (Raise e, s).
Definition bind {A B} (m : M A) (k : A -> M B) : M B :=
  fun s => match m s with
           | (Return a, s') => k a s'
           | (Raise e, s') => (Raise e, s')
           end.

(** The monad operations under stdpp's [x ← m; k] and [m;; k]. *)
#[global] Instance M_ret : MRet M := @ret.
#[global] Instance M_bind : MBind M := fun A B k m => bind m k.

Definition lift {A} (o : outcome A) : M A := fun s => (o, s).

Definition assert_ (b : bool) : M unit :=
  if b then ret tt else raise AssertionError.

Definition getattr {A} (f : MS5803 -> option A) : M A :=
  fun s => match f (self s) with
           | Some a => (Return a, s)
           | None => (Raise AttributeError, s)
           end.

Definition setattr (f : MS5803 -> MS5803) : M unit :=
  fun s => (Return tt, {| self := f (self s); trace := trace s |}).

Definition with_C (v : list Z) (o : MS5803) : MS5803 :=
  {| i2c := i2c o; address := address o; C := Some v;
     _temp_units := _temp_units o; _pressure_units := _pressure_units o;
     _temp_osr := _temp_osr o; _pressure_osr := _pressure_osr o |}.

Definition with_temp_units (v : pyval) (o : MS5803) : MS5803 :=
  {| i2c := i2c o; address := address o; C := C o;
     _temp_units := Some v; _pressure_units := _pressure_units o;
     _temp_osr := _temp_osr o; _pressure_osr := _pressure_osr o |}.

Definition with_pressure_units (v : pyval) (o : MS5803) : MS5803 :=
  {| i2c := i2c o; address := address o; C := C o;
     _temp_units := _temp_units o; _pressure_units := Some v;
     _temp_osr := _temp_osr o; _pressure_osr := _pressure_osr o |}.

Definition with_temp_osr (v : OSR.t) (o : MS5803) : MS5803 :=
  {| i2c := i2c o; address := address o; C := C o;
     _temp_units := _temp_units o; _pressure_units := _pressure_units o;
     _temp_osr := Some v; _pressure_osr := _pressure_osr o |}.

Definition with_pressure_osr (v : OSR.t) (o : MS5803) : MS5803 :=
  {| i2c := i2c o; address := address o; C := C o;
     _temp_units := _temp_units o; _pressure_units := _pressure_units o;
     _temp_osr := _temp_osr o; _pressure_osr := Some v |}.

Definition log (e : event) (s : state) : state :=
  {| self := self s; trace := trace s ++ [e] |}.

(** [self.i2c.writeto_mem(self.address, memaddr, buf)] *)
Definition writeto_mem (memaddr : Z) (buf : list byte) : M unit :=
  fun s =>
    if writeto_mem_ack (i2c (self s)) (trace s) (address (self s)) memaddr buf
    then (Return tt, log (EvWrite (address (self s)) memaddr buf) s)
    else (Raise OSError, s).

(** [self.i2c.readfrom_mem(self.address, memaddr, nbytes)] *)
Definition readfrom_mem (memaddr : Z) (nbytes : nat) : M (list byte) :=
  fun s =>
    match readfrom_mem_reply (i2c (self s)) (trace s) (address (self s))
                             memaddr nbytes with
    | Some data =>
        (Return data, log (EvRead (address (self s)) memaddr nbytes data) s)
    | None => (Raise OSError, s)
    end.

(** Loading a global name. *)
Definition load_global (name : string) : M unit :=
  if is_global name then ret tt else raise NameError.

Definition sleep_ms (ms : Z) : M unit :=
  load_global "sleep_ms";;
  (fun s => (Return tt, log (EvSleepMs ms) s)) : M unit.

(** [buf[i]] on a bytes object. *)
Definition byte_at (buf : list byte) (i : nat) : M Z :=
  match buf !! i with
  | Some b => ret (byte_val b)
  | None => raise IndexError
  end.

(** [utime.sleep(seconds)] *)
Definition sleep (seconds : Z) : M unit :=
  fun s => (Return tt, log (EvSleep seconds) s).

(** [for x in l: body] *)
Fixpoint for_ {A} (l : list A) (body : A -> M unit) : M unit :=
  match l with
  | [] => ret tt
  | x :: l' => body x;; for_ l' body
  end.

Definition range (n : nat) : list Z := map Z.of_nat (seq 0 n).

(** ** Methods of [MS5803] *)

(** [reset] (lines 127-130): the write, then [utime.sleep(3)]. *)
Definition reset : M unit :=
  writeto_mem CMD_RESET [];;
  load_global "utime";;
  sleep 3.

(** [self.C.append(w)] *)
Definition C_append (w : Z) : M unit :=
  c ← getattr C;
  setattr (with_C (c ++ [w])).

(** [_begin] (lines 133-150) *)
Definition _begin : M unit :=
  setattr (with_C []);;
  for_ (range 8) (fun i =>
    buf ← readfrom_mem (CMD_PROM + (i * 2)) 2;
    b0 ← byte_at buf 0;
    b1 ← byte_at buf 1;
    C_append (Z.lor (b0 ≪ 8) b1)).

(** Property [temp_units] (lines 153-163) *)
Definition temp_units_get : M pyval := getattr _temp_units.

Definition temp_units_set (value : pyval) : M unit :=
  if truthy value then
    assert_ (in_strs value TEMP_UNITS);;
    setattr (with_temp_units value)
  else
    setattr (with_temp_units PyNone).

(** Property [pressure_units] (lines 165-175): the getter returns
    [self._temp_units]. *)
Definition pressure_units_get : M pyval := getattr _temp_units.

Definition pressure_units_set (value : pyval) : M unit :=
  if truthy value then
    assert_ (in_strs value PRESSURE_UNITS);;
    setattr (with_pressure_units value)
  else
    setattr (with_pressure_units PyNone).

(** [self.OSRs[value]] *)
Definition OSRs_getitem (value : pyval) : M OSR.t :=
  match OSRs_get value with
  | Some o => ret o
  | None => raise KeyError
  end.

(** Property [temp_osr] (lines 177-184) *)
Definition temp_osr_get : M pyval :=
  o ← getattr _temp_osr; ret (PyOSR o).

Definition temp_osr_set (value : pyval) : M unit :=
  assert_ (bool_decide (is_Some (OSRs_get value)));;
  o ← OSRs_getitem value;
  setattr (with_temp_osr o).

(** Property [pressure_osr] (lines 186-193) *)
Definition pressure_osr_get : M pyval :=
  o ← getattr _pressure_osr; ret (PyOSR o).

Definition pressure_osr_set (value : pyval) : M unit :=
  assert_ (bool_decide (is_Some (OSRs_get value)));;
  o ← OSRs_getitem value;
  setattr (with_pressure_osr o).

(** The object before [__init__] has assigned anything but [self.i2c] and
    [self.address] (lines 118-119). *)
Definition alloc (bus : I2C) (addr : Z) : MS5803 :=
  {| i2c := bus; address := addr; C := None;
     _temp_units := None; _pressure_units := None;
     _temp_osr := None; _pressure_osr := None |}.

(** [__init__] (lines 97-124), after [self.i2c] and [self.address]. *)
Definition __init__ (temp_osr pressure_osr temp_units pressure_units : pyval)
  : M unit :=
  _begin;;
  temp_osr_set temp_osr;;
  pressure_osr_set pressure_osr;;
  temp_units_set temp_units;;
  pressure_units_set pressure_units.

(** [MS5803(i2c, address, temp_osr, pressure_osr, temp_units,
    pressure_units)], on a bus whose traffic so far is [tr]. *)
Definition construct (bus : I2C) (addr : Z)
    (temp_osr pressure_osr temp_units pressure_units : pyval)
    (tr : list event) : outcome unit * state :=
  __init__ temp_osr pressure_osr temp_units pressure_units
           {| self := alloc bus addr; trace := tr |}.

(** [precision.address] and [precision.sampling_time] *)
Definition attr_address (precision : pyval) : M Z :=
  match precision with
  | PyOSR o => ret (OSR.address o)
  | _ => raise AttributeError
  end.

Definition attr_sampling_time (precision : pyval) : M Z :=
  match precision with
  | PyOSR o => ret (OSR.sampling_time o)
  | _ => raise AttributeError
  end.

(** [_get_ADC_conversion] (lines 277-303) *)
Definition _get_ADC_conversion (measurement : Z) (precision : pyval) : M Z :=
  a ← attr_address precision;
  writeto_mem (CMD_ADC_CONV + measurement + a) [];;
  t ← attr_sampling_time precision;
  sleep_ms t;;
  buf ← readfrom_mem CMD_ADC_READ 3;
  b0 ← byte_at buf 0;
  b1 ← byte_at buf 1;
  b2 ← byte_at buf 2;
  ret ((b0 ≪ 16) + (b1 ≪ 8) + b2).

(** The second-order terms [(T2, OFF2, SENS2)] (lines 245-256). In Python
    [*] binds tighter than [>>], so [3 * x >> 1] is [(3 * x) >> 1]. *)
Definition second_order (dT temp : Z) : Z * Z * Z :=
  if temp <? 2000 then
    let T2 := 3 * ((dT * dT) ≫ 33) in
    let OFF2 := (3 * ((temp - 2000) * (temp - 2000))) ≫ 1 in
    let SENS2 := (5 * ((temp - 2000) * (temp - 2000))) ≫ 3 in
    if temp <? -1500 then
      (T2,
       OFF2 + 7 * ((temp + 1500) * (temp + 1500)),
       SENS2 + (((temp + 1500) * (temp + 1500)) ≪ 2))
    else (T2, OFF2, SENS2)
  else
    ((7 * (dT * dT)) ≫ 37, ((temp - 2000) * (temp - 2000)) ≫ 4, 0).

(** The compensation of [get_measurements] (lines 241-267); [None] is an
    index of [self.C] out of range. *)
Definition compensate (C : list Z) (temp_raw pressure_raw : Z)
  : option (Z * Z) :=
  C5 ← C !! 5%nat;
  let dT := temp_raw - (C5 ≪ 8) in
  C6 ← C !! 6%nat;
  let temp := ((dT * C6) ≫ 23) + 2000 in
  let '(T2, OFF2, SENS2) := second_order dT temp in
  C2 ← C !! 2%nat;
  C4 ← C !! 4%nat;
  let OFF := (C2 ≪ 16) + ((C4 * dT) ≫ 7) in
  C1 ← C !! 1%nat;
  C3 ← C !! 3%nat;
  let SENS := (C1 ≪ 15) + ((C3 * dT) ≫ 8) in
  let temp := temp - T2 in
  let OFF := OFF - OFF2 in
  let SENS := SENS - SENS2 in
  let pressure := (((SENS * pressure_raw) ≫ 21) - OFF) ≫ 15 in
  Some (temp, pressure).

Definition index_error {A} (o : option A) : M A :=
  match o with
  | Some a => ret a
  | None => raise IndexError
  end.

(** [get_measurements] (lines 195-274) *)
Definition get_measurements
    (temp_osr pressure_osr temp_units pressure_units : pyval)
  : M (num * num) :=
  temp_osr ← (if negb (truthy temp_osr) then temp_osr_get
              else temp_osr_set temp_osr;; ret temp_osr);
  pressure_osr ← (if negb (truthy pressure_osr) then pressure_osr_get
                  else pressure_osr_set pressure_osr;; ret pressure_osr);
  temp_units ← (if negb (truthy temp_units) then temp_units_get
                else temp_units_set temp_units;; ret temp_units);
  pressure_units ← (if negb (truthy pressure_units) then pressure_units_get
                    else pressure_units_set pressure_units;;
                         ret pressure_units);
  temp_raw ← _get_ADC_conversion TEMPERATURE temp_osr;
  pressure_raw ← _get_ADC_conversion PRESSURE pressure_osr;
  c ← getattr C;
  '(temp, pressure) ← index_error (compensate c temp_raw pressure_raw);
  temp ← (if truthy temp_units
          then lift (convert_temperature temp temp_units)
          else ret (NInt temp));
  pressure ← (if truthy pressure_units
              then lift (convert_pressure pressure pressure_units)
              else ret (NInt pressure));
  ret (temp, pressure).

(** ** The compensation in the words of the specification

    Right shifts are written as floor divisions by powers of two and left
    shifts as multiplications, over unbounded integers. *)
Definition spec_second_order (dT TEMP : Z) : Z * Z * Z :=
  if decide (TEMP < 2000) then
    let T2 := 3 * (dT ^ 2 `div` 2 ^ 33) in
    let OFF2 := (3 * (TEMP - 2000) ^ 2) `div` 2 ^ 1 in
    let SENS2 := (5 * (TEMP - 2000) ^ 2) `div` 2 ^ 3 in
    if decide (TEMP < -1500) then
      (T2, OFF2 + 7 * (TEMP + 1500) ^ 2, SENS2 + 4 * (TEMP + 1500) ^ 2)
    else (T2, OFF2, SENS2)
  else
    ((7 * dT ^ 2) `div` 2 ^ 37, (TEMP - 2000) ^ 2 `div` 2 ^ 4, 0).

Definition spec_compensation (C1 C2 C3 C4 C5 C6 raw_temp raw_pressure : Z)
  : Z * Z :=
  let dT := raw_temp - C5 * 2 ^ 8 in
  let TEMP := 2000 + (dT * C6) `div` 2 ^ 23 in
  let '(T2, OFF2, SENS2) := spec_second_order dT TEMP in
  let OFF := C2 * 2 ^ 16 + (C4 * dT) `div` 2 ^ 7 - OFF2 in
  let SENS := C1 * 2 ^ 15 + (C3 * dT) `div` 2 ^ 8 - SENS2 in
  (TEMP - T2, ((SENS * raw_pressure) `div` 2 ^ 21 - OFF) `div` 2 ^ 15).

(** ** Assumptions on the bus and on the configuration *)

(** A bus on which every transaction succeeds and every read returns the
    number of bytes asked for. *)
Definition responsive (bus : I2C) : Prop :=
  (∀ tr a m buf, writeto_mem_ack bus tr a m buf = true) ∧
  (∀ tr a m n, ∃ data,
      readfrom_mem_reply bus tr a m n = Some data ∧ length data = n).

(** A parameter of [get_measurements] or [__init__] that passes: an OSR
    that is omitted (with a stored one) or a key of [OSRs]; a unit that is
    omitted (with a stored one) or listed. *)
Definition osr_ok (stored : option OSR.t) (v : pyval) : bool :=
  if truthy v then bool_decide (is_Some (OSRs_get v))
  else bool_decide (is_Some stored).

Definition units_ok (stored : option pyval) (v : pyval) (l : list string)
  : bool :=
  if truthy v then in_strs v l else bool_decide (is_Some stored).

(** The attributes after a passing parameter has been applied. *)
Definition after_osr (set : OSR.t → MS5803 → MS5803) (v : pyval)
    (o : MS5803) : MS5803 :=
  if truthy v then from_option (λ x, set x o) o (OSRs_get v) else o.

Definition after_units (set : pyval → MS5803 → MS5803) (v : pyval)
    (o : MS5803) : MS5803 :=
  if truthy v then set v o else o.

(** ** A simulated sensor

    The device answers a PROM read with the big-endian bytes of the word
    addressed, and an ADC read with those of the raw value of the channel
    that the last conversion command selected. *)
Definition byte_of_Z (z : Z) : byte :=
  default Byte.x00 (Byte.of_N (Z.to_N (z `mod` 256))).

Fixpoint be_bytes (n : nat) (z : Z) : list byte :=
  match n with
  | O => []
  | S n' => byte_of_Z (z ≫ (8 * Z.of_nat n')) :: be_bytes n' z
  end.

Definition last_command (tr : list event) : Z :=
  fold_left (λ acc e, match e with EvWrite _ m _ => m | _ => acc end) tr 0.

Definition sensor (prom : list Z) (raw_temp raw_pressure : Z) : I2C :=
  {| readfrom_mem_reply tr a m n :=
       if m =? CMD_ADC_READ then
         Some (be_bytes n (if Z.testbit (last_command tr) 4
                           then raw_temp else raw_pressure))
       else
         Some (be_bytes n (prom !!! Z.to_nat ((m - CMD_PROM) `div` 2)));
     writeto_mem_ack tr a m buf := true |}.

(** The input vector of the specification's end-to-end example. *)
Definition example_sensor : I2C :=
  sensor [0; 28986; 25092; 14595; 24979; 30347; 20787; 0] 8077636 4298154.

(** [MS5803(i2c)] on the example sensor, with the default arguments. *)
Definition example_session : state :=
  (construct example_sensor 0x76 (PyInt 256) (PyInt 256) PyNone PyNone []).2.

(** ** The traffic of the calibration loader *)

(** The word that two bytes read from the PROM make, and the read events
    of the words number [i], [i + 1], ... *)
Definition word16 (d : byte * byte) : Z :=
  Z.lor (byte_val d.1 ≪ 8) (byte_val d.2).

Fixpoint prom_events (addr : Z) (i : nat) (ds : list (byte * byte))
  : list event :=
  match ds with
  | [] => []
  | d :: ds' =>
      EvRead addr (CMD_PROM + Z.of_nat i * 2) 2 [d.1; d.2]
      :: prom_events addr (S i) ds'
  end.

(** The register and the byte count of a read, for displaying a trace. *)
Definition read_of (e : event) : option (Z * nat) :=
  match e with
  | EvRead _ m n _ => Some (m, n)
  | _ => None
  end.

(** A computation that leaves the calibration list as it is. *)
Definition preserves_C {A} (m : M A) : Prop :=
  ∀ s, C (self (m s).2) = C (self s).


(** ** The driver calls of the example (src/example/MS5803_test.py)

    [ms = MS5803(i2c)] with the default arguments (line 9), then
    [ms.get_measurements()] (line 12) and
    [ms.get_measurements(temp_units='celcius', pressure_units='pascals')]
    (line 15), whose results the example prints in this order. Only these
    three calls are embedded: the imports of lines 1-3 and the creation
    of the I2C object on line 6 are not, so this is the sequence of calls
    on the driver, not the run of the file. *)
Definition example_calls : M (list (num * num)) :=
  __init__ (PyInt 256) (PyInt 256) PyNone PyNone;;
  r1 ← get_measurements PyNone PyNone PyNone PyNone;
  r2 ← get_measurements PyNone PyNone (PyStr "celcius") (PyStr "pascals");
  ret [r1; r2].

(** ** Vocabulary for the behaviour of a whole call *)

(** The raw value that three bytes read from the ADC make (line 301). *)
Definition word24 (b : byte * byte * byte) : Z :=
  (byte_val b.1.1 ≪ 16) + (byte_val b.1.2 ≪ 8) + byte_val b.2.

(** The events of one conversion and of the two conversions of a call. *)
Definition conversion_events (addr measurement : Z) (o : OSR.t)
    (b : byte * byte * byte) : list event :=
  [ EvWrite addr (CMD_ADC_CONV + measurement + OSR.address o) [];
    EvSleepMs (OSR.sampling_time o);
    EvRead addr CMD_ADC_READ 3 [b.1.1; b.1.2; b.2] ].

Definition measurement_events (addr : Z) (ot op : OSR.t)
    (bt bp : byte * byte * byte) : list event :=
  conversion_events addr TEMPERATURE ot bt
  ++ conversion_events addr PRESSURE op bp.

(** The conversions that end [get_measurements] (lines 269-274), for the
    units in effect. *)
Definition in_units (temp_units pressure_units : pyval) (temp pressure : Z)
  : outcome (num * num) :=
  match (if truthy temp_units then convert_temperature temp temp_units
         else Return (NInt temp)) with
  | Raise e => Raise e
  | Return t =>
      match (if truthy pressure_units
             then convert_pressure pressure pressure_units
             else Return (NInt pressure)) with
      | Raise e => Raise e
      | Return p => Return (t, p)
      end
  end.

(** A computation that never returns normally. *)
Definition always_raises {A} (m : M A) : Prop :=
  ∀ s, ∃ e, (m s).1 = Raise e.

(** A sensor whose PROM register [bad] cannot be read. *)
Definition faulty_sensor (prom : list Z) (bad : Z) : I2C :=
  {| readfrom_mem_reply tr a m n :=
       if m =? bad then None
       else Some (be_bytes n (prom !!! Z.to_nat ((m - CMD_PROM) `div` 2)));
     writeto_mem_ack tr a m buf := true |}.

(** A bus that refuses every write, and one that answers every read with
    a single byte. *)
Definition deaf_bus : I2C :=
  {| readfrom_mem_reply tr a m n := Some (be_bytes n 0);
     writeto_mem_ack tr a m buf := false |}.

Definition short_bus : I2C :=
  {| readfrom_mem_reply tr a m n := Some [Byte.x00];
     writeto_mem_ack tr a m buf := true |}.

(** A bus that accepts only commands with the temperature bit set. *)
Definition temperature_only_bus : I2C :=
  {| readfrom_mem_reply tr a m n := Some (be_bytes n 0);
     writeto_mem_ack tr a m buf := Z.testbit m 4 |}.

(** A session object with the default settings, on any bus. *)
Definition default_object (bus : I2C) (c : list Z) : MS5803 :=
  {| i2c := bus; address := 0x76; C := Some c;
     _temp_units := Some PyNone; _pressure_units := Some PyNone;
     _temp_osr := Some (OSR.make 0x00 1);
     _pressure_osr := Some (OSR.make 0x00 1) |}.

(** A computation that leaves an observation [f] of the state as it is,
    and a result that is an exception reached in a state satisfying [I]. *)
Definition keeps {A X} (f : state → X) (m : M A) : Prop :=
  ∀ s, f (m s).2 = f s.

Definition raised {A} (I : state → Prop) (r : outcome A * state) : Prop :=
  (∃ e, r.1 = Raise e) ∧ I r.2.

(** ** Every value the compensation computes

    The values of lines 241-267 in the order in which they are computed,
    subexpressions included, for the width needed by a port to machine
    integers. *)
Definition second_order_values (dT temp : Z) : list Z :=
  if temp <? 2000 then
    let sq := (temp - 2000) * (temp - 2000) in
    let OFF2 := (3 * sq) ≫ 1 in
    let SENS2 := (5 * sq) ≫ 3 in
    [ dT * dT; (dT * dT) ≫ 33; 3 * ((dT * dT) ≫ 33);
      temp - 2000; sq; 3 * sq; OFF2; 5 * sq; SENS2 ]
    ++ (if temp <? -1500 then
          let lo := (temp + 1500) * (temp + 1500) in
          [ temp + 1500; lo; 7 * lo; OFF2 + 7 * lo; lo ≪ 2;
            SENS2 + (lo ≪ 2) ]
        else [])
  else
    [ dT * dT; 7 * (dT * dT); (7 * (dT * dT)) ≫ 37;
      temp - 2000; (temp - 2000) * (temp - 2000);
      ((temp - 2000) * (temp - 2000)) ≫ 4; 0 ].

Definition compensate_values (C : list Z) (temp_raw pressure_raw : Z)
  : option (list Z) :=
  C5 ← C !! 5%nat;
  let dT := temp_raw - (C5 ≪ 8) in
  C6 ← C !! 6%nat;
  let temp := ((dT * C6) ≫ 23) + 2000 in
  let '(T2, OFF2, SENS2) := second_order dT temp in
  C2 ← C !! 2%nat;
  C4 ← C !! 4%nat;
  let OFF := (C2 ≪ 16) + ((C4 * dT) ≫ 7) in
  C1 ← C !! 1%nat;
  C3 ← C !! 3%nat;
  let SENS := (C1 ≪ 15) + ((C3 * dT) ≫ 8) in
  Some
    ([ C5 ≪ 8; dT; dT * C6; (dT * C6) ≫ 23; temp ]
     ++ second_order_values dT temp
     ++ [ C2 ≪ 16; C4 * dT; (C4 * dT) ≫ 7; OFF;
          C1 ≪ 15; C3 * dT; (C3 * dT) ≫ 8; SENS;
          temp - T2; OFF - OFF2; SENS - SENS2;
          (SENS - SENS2) * pressure_raw;
          ((SENS - SENS2) * pressure_raw) ≫ 21;
          (((SENS - SENS2) * pressure_raw) ≫ 21) - (OFF - OFF2);
          ((((SENS - SENS2) * pressure_raw) ≫ 21) - (OFF - OFF2)) ≫ 15 ]).

(** The ranges of a 16-bit word, of a 24-bit raw value and of the signed
    32-bit and 64-bit integers. *)
Definition u16 (z : Z) : Prop := 0 ≤ z < 2 ^ 16.
Definition u24 (z : Z) : Prop := 0 ≤ z < 2 ^ 24.
Definition i32 (z : Z) : Prop := - 2 ^ 31 ≤ z < 2 ^ 31.
Definition i64 (z : Z) : Prop := - 2 ^ 63 ≤ z < 2 ^ 63.
(** * Properties *)

Ltac run :=
  unfold mbind, M_bind, bind, ret, raise, lift, assert_, getattr, setattr,
    M_ret, mret in *; simpl in *.

(** ** The OSR table *)


(** C8: the class constant [OSRs] maps each of 256, 512, 1024, 2048 and
    4096 to the address modifier and the waiting time in milliseconds of
    the literal table, and has no other entry. The table is a constant of
    the class that no statement of the driver assigns to: the state
    threaded through the methods does not contain it. *)
Theorem OSRs_table :
  OSRs !! 256 = Some (OSR.make 0x00 1) ∧
  OSRs !! 512 = Some (OSR.make 0x02 2) ∧
  OSRs !! 1024 = Some (OSR.make 0x04 3) ∧
  OSRs !! 2048 = Some (OSR.make 0x06 5) ∧
  OSRs !! 4096 = Some (OSR.make 0x08 10) ∧
  size OSRs = 5%nat.
Proof. repeat split; vm_compute; reflexivity. Qed.

(** ** The second-order thresholds *)

(** C6: both thresholds are strict. When the first-order temperature is
    exactly 2000 the terms are those of the branch for 2000 and above;
    at 1999 they are those of the low-temperature branch; at -1500 the
    low-temperature terms carry no extra correction; at -1501 they carry
    [7 * (TEMP + 1500)^2] and [4 * (TEMP + 1500)^2]. *)
Theorem second_order_thresholds (dT C6 : Z) :
  let temp := ((dT * C6) ≫ 23) + 2000 in
  (temp = 2000 →
   second_order dT temp
   = ((7 * dT ^ 2) `div` 2 ^ 37, (2000 - 2000) ^ 2 `div` 2 ^ 4, 0)) ∧
  (temp = 1999 →
   second_order dT temp
   = (3 * (dT ^ 2 `div` 2 ^ 33),
      (3 * (1999 - 2000) ^ 2) `div` 2 ^ 1,
      (5 * (1999 - 2000) ^ 2) `div` 2 ^ 3)) ∧
  (temp = -1500 →
   second_order dT temp
   = (3 * (dT ^ 2 `div` 2 ^ 33),
      (3 * (-1500 - 2000) ^ 2) `div` 2 ^ 1,
      (5 * (-1500 - 2000) ^ 2) `div` 2 ^ 3)) ∧
  (temp = -1501 →
   second_order dT temp
   = (3 * (dT ^ 2 `div` 2 ^ 33),
      (3 * (-1501 - 2000) ^ 2) `div` 2 ^ 1 + 7 * (-1501 + 1500) ^ 2,
      (5 * (-1501 - 2000) ^ 2) `div` 2 ^ 3 + 4 * (-1501 + 1500) ^ 2)).
Proof.
  intros temp.
  repeat split; intros ->; unfold second_order; simpl (_ <? _);
    cbv iota; rewrite ?Z.shiftr_div_pow2 by lia; rewrite ?Z.pow_2_r;
    reflexivity.
Qed.

(** Raw inputs that reach each of the four temperatures. *)
Lemma second_order_thresholds_witness :
  second_order 0 (((0 * 20787) ≫ 23) + 2000) = (0, 0, 0) ∧
  second_order (-1) (((-1 * 1) ≫ 23) + 2000) = (0, 1, 0) ∧
  second_order (-896000) (((-896000 * 32768) ≫ 23) + 2000)
  = (279, 18375000, 7656250) ∧
  second_order (-896256) (((-896256 * 32768) ≫ 23) + 2000)
  = (279, 18385508, 7660629).
Proof.
  split; [| split; [| split]].
  - destruct (second_order_thresholds 0 20787) as (H & _).
    exact (H eq_refl).
  - destruct (second_order_thresholds (-1) 1) as (_ & H & _).
    exact (H eq_refl).
  - destruct (second_order_thresholds (-896000) 32768) as (_ & _ & H & _).
    exact (H eq_refl).
  - destruct (second_order_thresholds (-896256) 32768) as (_ & _ & _ & H).
    exact (H eq_refl).
Defined.

(** ** Reset *)

(** C9: [reset] writes the reset command with an empty payload and then
    raises [NameError] at [utime.sleep(3)], the name [utime] not being
    bound in the module: it does not wait and does not return. *)
Theorem reset_raises (s : state) :
  reset s =
  if writeto_mem_ack (i2c (self s)) (trace s) (address (self s)) CMD_RESET []
  then (Raise NameError, log (EvWrite (address (self s)) 0x1E []) s)
  else (Raise OSError, s).
Proof.
  unfold reset, writeto_mem. run.
  destruct (writeto_mem_ack _ _ _ _ _); reflexivity.
Qed.

(** ** The unit properties *)

(** C4: the getter of [pressure_units] reads the storage of [temp_units]:
    on the example session, after [pressure_units = 'bar'] and
    [temp_units = 'celcius'], reading [pressure_units] gives ['celcius'],
    and assigning [temp_units] changes what it returns. *)
Theorem pressure_units_reads_temp_units :
  (∀ s, pressure_units_get s = temp_units_get s) ∧
  (let s1 := (pressure_units_set (PyStr "bar") example_session).2 in
   let s2 := (temp_units_set (PyStr "celcius") s1).2 in
   _pressure_units (self s2) = Some (PyStr "bar") ∧
   (pressure_units_get s1).1 = Return PyNone ∧
   (pressure_units_get s2).1 = Return (PyStr "celcius")).
Proof. split; [reflexivity | vm_compute; auto]. Qed.

(** ** Rejected assignments *)




Lemma state_eta (s : state) : {| self := self s; trace := trace s |} = s.
Proof. by destruct s. Qed.




(** ** The configuration part of [get_measurements] *)

Lemma bind_return {A B} (m : M A) (k : A → M B) s a s' :
  m s = (Return a, s') → (m ≫= k) s = k a s'.
Proof. intros H. run. by rewrite H. Qed.

Lemma bind_raise {A B} (m : M A) (k : A → M B) s e s' :
  m s = (Raise e, s') → (m ≫= k) s = (Raise e, s').
Proof. intros H. run. by rewrite H. Qed.

Lemma osr_param_applies (stored : MS5803 → option OSR.t)
    (set : OSR.t → MS5803 → MS5803) (v : pyval) (s : state) :
  osr_ok (stored (self s)) v = true →
  ∃ p, (if negb (truthy v)
        then (o ← getattr stored; ret (PyOSR o))
        else (assert_ (bool_decide (is_Some (OSRs_get v)));;
              o ← OSRs_getitem v; setattr (set o));; ret v) s
       = (Return p, {| self := after_osr set v (self s);
                       trace := trace s |}).
Proof.
  unfold osr_ok, after_osr, OSRs_getitem. destruct (truthy v); simpl.
  - intros [o Ho]%bool_decide_eq_true. run. rewrite Ho. simpl. eauto.
  - intros [o Ho]%bool_decide_eq_true. run. rewrite Ho, state_eta. eauto.
Qed.

Lemma osr_param_rejected (stored : MS5803 → option OSR.t)
    (set : OSR.t → MS5803 → MS5803) (v : pyval) (s : state) :
  truthy v = true → OSRs_get v = None →
  (if negb (truthy v)
   then (o ← getattr stored; ret (PyOSR o))
   else (assert_ (bool_decide (is_Some (OSRs_get v)));;
         o ← OSRs_getitem v; setattr (set o));; ret v) s
  = (Raise AssertionError, s).
Proof. intros -> ->. reflexivity. Qed.

Lemma units_param_applies (set : pyval → MS5803 → MS5803)
    (l : list string) (v : pyval) (s : state) :
  units_ok (_temp_units (self s)) v l = true →
  ∃ p, (if negb (truthy v)
        then getattr _temp_units
        else (if truthy v
              then assert_ (in_strs v l);; setattr (set v)
              else setattr (set PyNone));; ret v) s
       = (Return p, {| self := after_units set v (self s);
                       trace := trace s |}).
Proof.
  unfold units_ok, after_units. destruct (truthy v); simpl.
  - intros ->. run. eauto.
  - intros [o Ho]%bool_decide_eq_true. run. rewrite Ho, state_eta. eauto.
Qed.

Lemma units_param_rejected (set : pyval → MS5803 → MS5803)
    (l : list string) (v : pyval) (s : state) :
  truthy v = true → in_strs v l = false →
  (if negb (truthy v)
   then getattr _temp_units
   else (if truthy v
         then assert_ (in_strs v l);; setattr (set v)
         else setattr (set PyNone));; ret v) s
  = (Raise AssertionError, s).
Proof. intros -> ->. reflexivity. Qed.

Lemma after_temp_osr_pressure_osr v o :
  _pressure_osr (after_osr with_temp_osr v o) = _pressure_osr o.
Proof.
  unfold after_osr. destruct (truthy v); [|done].
  by destruct (OSRs_get v).
Qed.

Lemma after_osrs_temp_units v w o :
  _temp_units (after_osr with_pressure_osr w (after_osr with_temp_osr v o))
  = _temp_units o.
Proof.
  unfold after_osr.
  destruct (truthy w), (truthy v); try done;
    destruct (OSRs_get w), (OSRs_get v); done.
Qed.

(** The state in which a rejected later parameter leaves the call, in
    terms of the updates of the parameters before it. *)
Lemma config_prefix_applied
    (s : state) (temp_osr pressure_osr temp_units pressure_units : pyval) :
  osr_ok (_temp_osr (self s)) temp_osr = true →
  let o1 := after_osr with_temp_osr temp_osr (self s) in
  let o2 := after_osr with_pressure_osr pressure_osr o1 in
  let o3 := after_units with_temp_units temp_units o2 in
  let call :=
    get_measurements temp_osr pressure_osr temp_units pressure_units s in
  (truthy pressure_osr = true → OSRs_get pressure_osr = None →
   call = (Raise AssertionError, {| self := o1; trace := trace s |})) ∧
  (osr_ok (_pressure_osr (self s)) pressure_osr = true →
   truthy temp_units = true → in_strs temp_units TEMP_UNITS = false →
   call = (Raise AssertionError, {| self := o2; trace := trace s |})) ∧
  (osr_ok (_pressure_osr (self s)) pressure_osr = true →
   units_ok (_temp_units (self s)) temp_units TEMP_UNITS = true →
   truthy pressure_units = true →
   in_strs pressure_units PRESSURE_UNITS = false →
   call = (Raise AssertionError, {| self := o3; trace := trace s |})).
Proof.
  intros Hto o1 o2 o3 call.
  destruct (osr_param_applies _temp_osr with_temp_osr _ _ Hto) as [p1 H1].
  fold o1 in H1. subst call. unfold get_measurements.
  unfold temp_osr_get, temp_osr_set.
  rewrite (bind_return _ _ _ _ _ H1).
  set (s1 := {| self := o1; trace := trace s |}) in *.
  unfold pressure_osr_get, pressure_osr_set.
  split; [| split].
  - intros Ht Hnone. apply bind_raise.
    by apply (osr_param_rejected _pressure_osr with_pressure_osr).
  - intros Hpo Ht Hout.
    rewrite <- (after_temp_osr_pressure_osr temp_osr) in Hpo.
    destruct (osr_param_applies _pressure_osr with_pressure_osr
                pressure_osr s1 Hpo) as [p2 H2].
    rewrite (bind_return _ _ _ _ _ H2). apply bind_raise.
    unfold temp_units_get, temp_units_set.
    by apply (units_param_rejected with_temp_units).
  - intros Hpo Htu Ht Hout.
    rewrite <- (after_temp_osr_pressure_osr temp_osr) in Hpo.
    destruct (osr_param_applies _pressure_osr with_pressure_osr
                pressure_osr s1 Hpo) as [p2 H2].
    rewrite (bind_return _ _ _ _ _ H2).
    set (s2 := {| self := o2; trace := trace s |}) in *.
    rewrite <- (after_osrs_temp_units temp_osr pressure_osr) in Htu.
    unfold temp_units_get, temp_units_set.
    destruct (units_param_applies with_temp_units TEMP_UNITS
                temp_units s2 Htu) as [p3 H3].
    rewrite (bind_return _ _ _ _ _ H3). apply bind_raise.
    unfold pressure_units_get, pressure_units_set.
    by apply (units_param_rejected with_pressure_units).
Qed.

Lemma after_temp_osr_fields (v : pyval) (o : MS5803) :
  osr_ok (_temp_osr o) v = true →
  after_osr with_temp_osr v o
  = {| i2c := i2c o; address := address o; C := C o;
       _temp_units := _temp_units o; _pressure_units := _pressure_units o;
       _temp_osr := if truthy v then OSRs_get v else _temp_osr o;
       _pressure_osr := _pressure_osr o |}.
Proof.
  unfold osr_ok, after_osr. destruct (truthy v).
  - intros [x Hx]%bool_decide_eq_true. by rewrite Hx.
  - intros _. by destruct o.
Qed.

Lemma after_pressure_osr_fields (v : pyval) (o : MS5803) :
  osr_ok (_pressure_osr o) v = true →
  after_osr with_pressure_osr v o
  = {| i2c := i2c o; address := address o; C := C o;
       _temp_units := _temp_units o; _pressure_units := _pressure_units o;
       _temp_osr := _temp_osr o;
       _pressure_osr := if truthy v then OSRs_get v else _pressure_osr o |}.
Proof.
  unfold osr_ok, after_osr. destruct (truthy v).
  - intros [x Hx]%bool_decide_eq_true. by rewrite Hx.
  - intros _. by destruct o.
Qed.

Lemma after_temp_units_fields (v : pyval) (o : MS5803) :
  after_units with_temp_units v o
  = {| i2c := i2c o; address := address o; C := C o;
       _temp_units := if truthy v then Some v else _temp_units o;
       _pressure_units := _pressure_units o;
       _temp_osr := _temp_osr o; _pressure_osr := _pressure_osr o |}.
Proof. unfold after_units. destruct (truthy v); [done | by destruct o]. Qed.

(** C10: [get_measurements] applies its parameters in the order
    [temp_osr], [pressure_osr], [temp_units], [pressure_units], before any
    bus traffic. When the earlier parameters pass and a later supplied one
    is rejected, the call raises [AssertionError] with the trace as it
    was, and the object is left with every attribute as before except
    those of the earlier supplied parameters, which hold the new values:
    [_temp_osr] and [_pressure_osr] the table entries of the supplied
    keys, [_temp_units] the supplied unit. *)
Theorem get_measurements_config_not_atomic
    (s : state) (temp_osr pressure_osr temp_units pressure_units : pyval) :
  osr_ok (_temp_osr (self s)) temp_osr = true →
  let call :=
    get_measurements temp_osr pressure_osr temp_units pressure_units s in
  let new_temp_osr :=
    if truthy temp_osr then OSRs_get temp_osr else _temp_osr (self s) in
  let new_pressure_osr :=
    if truthy pressure_osr then OSRs_get pressure_osr
    else _pressure_osr (self s) in
  let new_temp_units :=
    if truthy temp_units then Some temp_units else _temp_units (self s) in
  let left := λ stored_temp_osr stored_pressure_osr stored_temp_units,
    {| self :=
         {| i2c := i2c (self s); address := address (self s);
            C := C (self s);
            _temp_units := stored_temp_units;
            _pressure_units := _pressure_units (self s);
            _temp_osr := stored_temp_osr;
            _pressure_osr := stored_pressure_osr |};
       trace := trace s |} in
  (truthy temp_osr = true →
   ∃ o, new_temp_osr = Some o ∧ OSRs_get temp_osr = Some o) ∧
  (truthy pressure_osr = true → OSRs_get pressure_osr = None →
   call = (Raise AssertionError,
           left new_temp_osr (_pressure_osr (self s))
             (_temp_units (self s)))) ∧
  (osr_ok (_pressure_osr (self s)) pressure_osr = true →
   truthy temp_units = true → in_strs temp_units TEMP_UNITS = false →
   call = (Raise AssertionError,
           left new_temp_osr new_pressure_osr (_temp_units (self s)))) ∧
  (osr_ok (_pressure_osr (self s)) pressure_osr = true →
   units_ok (_temp_units (self s)) temp_units TEMP_UNITS = true →
   truthy pressure_units = true →
   in_strs pressure_units PRESSURE_UNITS = false →
   call = (Raise AssertionError,
           left new_temp_osr new_pressure_osr new_temp_units)).
Proof.
  intros Hto call new_temp_osr new_pressure_osr new_temp_units left.
  destruct (config_prefix_applied s temp_osr pressure_osr temp_units
              pressure_units Hto) as (H1 & H2 & H3).
  cbv zeta in H1, H2, H3.
  pose proof (after_temp_osr_fields temp_osr (self s) Hto) as E1.
  split; [| split; [| split]].
  - intros Ht. subst new_temp_osr. rewrite Ht.
    unfold osr_ok in Hto. rewrite Ht in Hto.
    apply bool_decide_eq_true in Hto as [o Ho]. eauto.
  - intros Ht Hnone. subst call. rewrite (H1 Ht Hnone), E1. reflexivity.
  - intros Hpo Ht Hout. subst call. rewrite (H2 Hpo Ht Hout), E1.
    rewrite after_pressure_osr_fields by exact Hpo. reflexivity.
  - intros Hpo Htu Ht Hout. subst call. rewrite (H3 Hpo Htu Ht Hout), E1.
    rewrite after_pressure_osr_fields by exact Hpo.
    rewrite after_temp_units_fields. reflexivity.
Qed.

(** On the example session: [get_measurements(512, 100)] raises on 100
    without bus traffic and leaves the temperature OSR, which was that of
    256, at the table entry of 512. *)
Lemma get_measurements_config_not_atomic_witness :
  let call :=
    get_measurements (PyInt 512) (PyInt 100) PyNone PyNone example_session in
  call.1 = Raise AssertionError ∧
  trace call.2 = trace example_session ∧
  _temp_osr (self example_session) = Some (OSR.make 0x00 1) ∧
  _temp_osr (self call.2) = Some (OSR.make 0x02 2) ∧
  _pressure_osr (self call.2) = Some (OSR.make 0x00 1).
Proof.
  intros call. subst call.
  destruct (get_measurements_config_not_atomic example_session
              (PyInt 512) (PyInt 100) PyNone PyNone eq_refl)
    as (_ & H & _).
  rewrite (H eq_refl eq_refl). repeat split.
Defined.

(** ** Supplying an OSR to [get_measurements] *)

(** C3: a call that supplies an OSR stores it and then raises
    [AttributeError], because the integer, not the stored table entry, is
    handed to [_get_ADC_conversion]; and an omitted [pressure_units] takes
    the stored temperature unit, so that after the example script's
    [get_measurements(temp_units='celcius', pressure_units='pascals')] a
    call without arguments raises in [convert_pressure]. *)
Theorem get_measurements_supplied_osr_raises :
  get_measurements (PyInt 512) PyNone PyNone PyNone example_session
  = (Raise AttributeError,
     {| self := with_temp_osr (OSR.make 0x02 2) (self example_session);
        trace := trace example_session |}) ∧
  (let r1 := get_measurements PyNone PyNone (PyStr "celcius")
               (PyStr "pascals") example_session in
   r1.1 = Return (NDiv (NInt 2761) (NInt 100), NDiv (NInt 8486) (NInt 10)) ∧
   _pressure_units (self r1.2) = Some (PyStr "pascals") ∧
   (get_measurements PyNone PyNone PyNone PyNone r1.2).1 = Raise NameError).
Proof. vm_compute. auto. Qed.

(** ** Bytes and big-endian words *)

Lemma byte_val_range (b : byte) : 0 ≤ byte_val b < 256.
Proof. unfold byte_val. pose proof (Byte.to_N_bounded b). lia. Qed.

Lemma add_lor_low (hi lo n : Z) :
  0 ≤ n → 0 ≤ lo < 2 ^ n → (hi ≪ n) + lo = Z.lor (hi ≪ n) lo.
Proof.
  intros Hn Hlo. apply Z.add_nocarry_lor, Z.bits_inj'. intros i Hi.
  rewrite Z.land_spec, Z.bits_0.
  destruct (Z.lt_ge_cases i n) as [Hlt | Hge].
  - by rewrite Z.shiftl_spec_low.
  - rewrite <- (Z.mod_small lo (2 ^ n)) by lia.
    rewrite Z.mod_pow2_bits_high by lia. apply andb_false_r.
Qed.

Lemma word24_lor (b0 b1 b2 : Z) :
  0 ≤ b0 < 256 → 0 ≤ b1 < 256 → 0 ≤ b2 < 256 →
  (b0 ≪ 16) + (b1 ≪ 8) + b2 = Z.lor (Z.lor (b0 ≪ 16) (b1 ≪ 8)) b2
  ∧ 0 ≤ (b0 ≪ 16) + (b1 ≪ 8) + b2 < 2 ^ 24.
Proof.
  intros H0 H1 H2.
  assert (Hhi : (b0 ≪ 16) + (b1 ≪ 8) = Z.lor (b0 ≪ 16) (b1 ≪ 8)).
  { apply add_lor_low; [lia|]. rewrite Z.shiftl_mul_pow2 by lia. lia. }
  split.
  - rewrite <- Hhi.
    replace ((b0 ≪ 16) + (b1 ≪ 8)) with ((b0 * 256 + b1) ≪ 8)
      by (rewrite !Z.shiftl_mul_pow2 by lia; lia).
    apply add_lor_low; lia.
  - rewrite !Z.shiftl_mul_pow2 by lia. lia.
Qed.

Lemma OSRs_keys (k : Z) (o : OSR.t) :
  OSRs !! k = Some o →
  (k, o) ∈ [ (256, OSR.make 0x00 1); (512, OSR.make 0x02 2);
             (1024, OSR.make 0x04 3); (2048, OSR.make 0x06 5);
             (4096, OSR.make 0x08 10) ].
Proof. unfold OSRs. apply elem_of_list_to_map_2. Qed.

Lemma command_lor (measurement k : Z) (o : OSR.t) :
  measurement = PRESSURE ∨ measurement = TEMPERATURE →
  OSRs !! k = Some o →
  CMD_ADC_CONV + measurement + OSR.address o
  = Z.lor (Z.lor 0x40 measurement) (OSR.address o).
Proof.
  intros Hm Hk%OSRs_keys.
  repeat (apply elem_of_cons in Hk as [Hk | Hk];
          [injection Hk as -> ->; destruct Hm as [-> | ->]; reflexivity |]).
  by apply elem_of_nil in Hk.
Qed.

(** ** One ADC conversion *)

Lemma three_bytes (data : list byte) :
  length data = 3%nat → ∃ b0 b1 b2, data = [b0; b1; b2].
Proof.
  destruct data as [|b0 [|b1 [|b2 [|? ?]]]]; try discriminate. eauto.
Qed.

Lemma ADC_conversion_run (s : state) (measurement : Z) (o : OSR.t) :
  responsive (i2c (self s)) →
  ∃ b0 b1 b2 : byte,
    _get_ADC_conversion measurement (PyOSR o) s
    = (Return ((byte_val b0 ≪ 16) + (byte_val b1 ≪ 8) + byte_val b2),
       {| self := self s;
          trace := trace s ++
            [ EvWrite (address (self s))
                      (CMD_ADC_CONV + measurement + OSR.address o) [];
              EvSleepMs (OSR.sampling_time o);
              EvRead (address (self s)) CMD_ADC_READ 3 [b0; b1; b2] ] |}).
Proof.
  intros [Hw Hr].
  destruct (Hr ((trace s ++
                   [EvWrite (address (self s))
                      (CMD_ADC_CONV + measurement + OSR.address o) []]) ++
                  [EvSleepMs (OSR.sampling_time o)])
               (address (self s)) CMD_ADC_READ 3%nat)
    as (data & Hdata & Hlen).
  destruct (three_bytes data Hlen) as (b0 & b1 & b2 & ->).
  exists b0, b1, b2.
  unfold _get_ADC_conversion, writeto_mem, sleep_ms, readfrom_mem,
    load_global, byte_at, log. run.
  rewrite Hw. simpl. rewrite Hdata. simpl.
  by rewrite <- !app_assoc.
Qed.

(** C5: one ADC conversion on a responsive bus, for either channel and
    any OSR of the table, is exactly: a write of the command that combines
    bitwise [0x40], the channel selector (pressure [0x00], temperature
    [0x10]) and the OSR's address modifier, with an empty payload; a sleep
    of the OSR's time in milliseconds; a read of 3 bytes at [0x00]. It
    returns [(b0 << 16) | (b1 << 8) | b2], which is below [2^24]. *)
Theorem ADC_conversion_sequence (s : state) (measurement k : Z) (o : OSR.t) :
  responsive (i2c (self s)) →
  measurement = 0x00 ∨ measurement = 0x10 →
  OSRs !! k = Some o →
  ∃ b0 b1 b2 : byte,
    let raw :=
      Z.lor (Z.lor (byte_val b0 ≪ 16) (byte_val b1 ≪ 8)) (byte_val b2) in
    _get_ADC_conversion measurement (PyOSR o) s
    = (Return raw,
       {| self := self s;
          trace := trace s ++
            [ EvWrite (address (self s))
                      (Z.lor (Z.lor 0x40 measurement) (OSR.address o)) [];
              EvSleepMs (OSR.sampling_time o);
              EvRead (address (self s)) 0x00 3 [b0; b1; b2] ] |})
    ∧ 0 ≤ raw < 2 ^ 24
    ∧ PRESSURE = 0x00 ∧ TEMPERATURE = 0x10.
Proof.
  intros Hbus Hm Hk.
  destruct (ADC_conversion_run s measurement o Hbus) as (b0 & b1 & b2 & H).
  exists b0, b1, b2. cbv zeta.
  destruct (word24_lor (byte_val b0) (byte_val b1) (byte_val b2))
    as [<- Hrange]; try apply byte_val_range.
  rewrite <- (command_lor measurement k o Hm Hk).
  repeat split; try apply Hrange. exact H.
Qed.

Lemma be_bytes_length (n : nat) (z : Z) : length (be_bytes n z) = n.
Proof. induction n as [|n IH]; simpl; [done | by rewrite IH]. Qed.

Lemma sensor_responsive prom raw_temp raw_pressure :
  responsive (sensor prom raw_temp raw_pressure).
Proof.
  split; [done|]. intros tr a m n. simpl.
  destruct (m =? CMD_ADC_READ); eexists; split; eauto using be_bytes_length.
Qed.

Lemma example_session_bus : i2c (self example_session) = example_sensor.
Proof. reflexivity. Qed.

Lemma example_session_responsive : responsive (i2c (self example_session)).
Proof. rewrite example_session_bus. apply sensor_responsive. Qed.

Lemma ADC_conversion_sequence_witness :
  ∃ b0 b1 b2 : byte,
    let raw :=
      Z.lor (Z.lor (byte_val b0 ≪ 16) (byte_val b1 ≪ 8)) (byte_val b2) in
    _get_ADC_conversion 0x10 (PyOSR (OSR.make 0x08 10)) example_session
    = (Return raw,
       {| self := self example_session;
          trace := trace example_session ++
            [ EvWrite (address (self example_session))
                      (Z.lor (Z.lor 0x40 0x10) 0x08) [];
              EvSleepMs 10;
              EvRead (address (self example_session)) 0x00 3
                     [b0; b1; b2] ] |})
    ∧ 0 ≤ raw < 2 ^ 24
    ∧ PRESSURE = 0x00 ∧ TEMPERATURE = 0x10.
Proof.
  apply (ADC_conversion_sequence example_session 0x10 4096
           (OSR.make 0x08 10)).
  - exact example_session_responsive.
  - right. reflexivity.
  - reflexivity.
Defined.

(** ** The compensation *)

Lemma second_order_spec (dT temp : Z) :
  second_order dT temp = spec_second_order dT temp.
Proof.
  unfold second_order, spec_second_order.
  rewrite !Z.shiftr_div_pow2, !Z.shiftl_mul_pow2, !Z.pow_2_r by lia.
  destruct (Z.ltb_spec temp 2000), (Z.ltb_spec temp (-1500));
    repeat case_decide; try lia;
    rewrite !pair_equal_spec; repeat split; lia.
Qed.

Lemma compensate_spec (c0 c1 c2 c3 c4 c5 c6 c7 raw_temp raw_pressure : Z) :
  compensate [c0; c1; c2; c3; c4; c5; c6; c7] raw_temp raw_pressure
  = Some (spec_compensation c1 c2 c3 c4 c5 c6 raw_temp raw_pressure).
Proof.
  unfold compensate, spec_compensation.
  cbn [mbind option_bind lookup list_lookup].
  rewrite second_order_spec, !Z.shiftl_mul_pow2 by lia.
  rewrite (Z.shiftr_div_pow2 _ 23), (Z.add_comm _ 2000) by lia.
  destruct (spec_second_order _ _) as [[T2 OFF2] SENS2].
  by rewrite !Z.shiftr_div_pow2 by lia.
Qed.

(** C1: on a list of eight calibration words the compensation of
    [get_measurements] computes, for any raw values, the temperature and
    the pressure of the specification's formulas, every right shift being
    a floor division by a power of two over unbounded integers; and a call
    with no unit selected returns exactly that pair, computed from the two
    raw values its conversions read. *)
Theorem get_measurements_compensation (c0 c1 c2 c3 c4 c5 c6 c7 : Z) :
  (∀ raw_temp raw_pressure,
     compensate [c0; c1; c2; c3; c4; c5; c6; c7] raw_temp raw_pressure
     = Some (spec_compensation c1 c2 c3 c4 c5 c6 raw_temp raw_pressure)) ∧
  (∀ s ot op,
     responsive (i2c (self s)) →
     C (self s) = Some [c0; c1; c2; c3; c4; c5; c6; c7] →
     _temp_osr (self s) = Some ot →
     _pressure_osr (self s) = Some op →
     _temp_units (self s) = Some PyNone →
     ∃ raw_temp raw_pressure s1 s2,
       _get_ADC_conversion TEMPERATURE (PyOSR ot) s = (Return raw_temp, s1) ∧
       _get_ADC_conversion PRESSURE (PyOSR op) s1
       = (Return raw_pressure, s2) ∧
       get_measurements PyNone PyNone PyNone PyNone s
       = (Return
            (NInt (spec_compensation c1 c2 c3 c4 c5 c6
                     raw_temp raw_pressure).1,
             NInt (spec_compensation c1 c2 c3 c4 c5 c6
                     raw_temp raw_pressure).2),
          s2)).
Proof.
  split; [intros; apply compensate_spec|].
  intros s ot op Hbus HC Hot Hop Hunits.
  destruct (ADC_conversion_run s TEMPERATURE ot Hbus)
    as (t0 & t1 & t2 & Ht).
  set (raw_temp := _ + byte_val t2) in Ht.
  set (s1 := {| self := self s; trace := _ |}) in Ht.
  destruct (ADC_conversion_run s1 PRESSURE op Hbus)
    as (p0 & p1 & p2 & Hp).
  set (raw_pressure := _ + byte_val p2) in Hp.
  set (s2 := {| self := self s1; trace := _ |}) in Hp.
  exists raw_temp, raw_pressure, s1, s2. split; [done|]. split; [done|].
  unfold get_measurements. simpl negb. cbv iota.
  assert (G1 : temp_osr_get s = (Return (PyOSR ot), s)).
  { unfold temp_osr_get. run. by rewrite Hot. }
  assert (G2 : pressure_osr_get s = (Return (PyOSR op), s)).
  { unfold pressure_osr_get. run. by rewrite Hop. }
  assert (G3 : temp_units_get s = (Return PyNone, s)).
  { unfold temp_units_get. run. by rewrite Hunits. }
  assert (G4 : pressure_units_get s = (Return PyNone, s)) by exact G3.
  assert (G5 : getattr C s2 = (Return [c0; c1; c2; c3; c4; c5; c6; c7], s2)).
  { run. by rewrite HC. }
  rewrite (bind_return _ _ _ _ _ G1), (bind_return _ _ _ _ _ G2),
    (bind_return _ _ _ _ _ G3), (bind_return _ _ _ _ _ G4),
    (bind_return _ _ _ _ _ Ht), (bind_return _ _ _ _ _ Hp),
    (bind_return _ _ _ _ _ G5).
  rewrite compensate_spec.
  destruct (spec_compensation _ _ _ _ _ _ _ _) as [T P]. reflexivity.
Qed.

Lemma example_session_C :
  C (self example_session)
  = Some [0; 28986; 25092; 14595; 24979; 30347; 20787; 0].
Proof. reflexivity. Qed.

(** The end-to-end example of the specification on the simulated sensor. *)
Lemma get_measurements_compensation_witness :
  ∃ raw_temp raw_pressure s1 s2,
    _get_ADC_conversion TEMPERATURE (PyOSR (OSR.make 0x00 1))
      example_session = (Return raw_temp, s1) ∧
    _get_ADC_conversion PRESSURE (PyOSR (OSR.make 0x00 1)) s1
    = (Return raw_pressure, s2) ∧
    get_measurements PyNone PyNone PyNone PyNone example_session
    = (Return
         (NInt (spec_compensation 28986 25092 14595 24979 30347 20787
                  raw_temp raw_pressure).1,
          NInt (spec_compensation 28986 25092 14595 24979 30347 20787
                  raw_temp raw_pressure).2),
       s2).
Proof.
  destruct (get_measurements_compensation
              0 28986 25092 14595 24979 30347 20787 0) as [_ H].
  apply (H example_session (OSR.make 0x00 1) (OSR.make 0x00 1)).
  - exact example_session_responsive.
  - exact example_session_C.
  - reflexivity.
  - reflexivity.
  - reflexivity.
Defined.

Example example_reading :
  (get_measurements PyNone PyNone PyNone PyNone example_session).1
  = Return (NInt 2761, NInt 8486).
Proof. vm_compute. reflexivity. Qed.

(** ** The calibration loader *)

Lemma word16_range (d : byte * byte) : 0 ≤ word16 d < 2 ^ 16.
Proof.
  unfold word16.
  pose proof (byte_val_range d.1). pose proof (byte_val_range d.2).
  rewrite <- add_lor_low by lia. rewrite Z.shiftl_mul_pow2 by lia. lia.
Qed.

Lemma with_C_same (c : list Z) (o : MS5803) : C o = Some c → with_C c o = o.
Proof. destruct o. simpl. by intros ->. Qed.

Lemma two_bytes (data : list byte) :
  length data = 2%nat → ∃ b0 b1, data = [b0; b1].
Proof. destruct data as [|b0 [|b1 [|? ?]]]; try discriminate. eauto. Qed.

Lemma prom_loop (n : nat) :
  ∀ (i : nat) (s : state) (c : list Z),
    responsive (i2c (self s)) →
    C (self s) = Some c →
    ∃ ds : list (byte * byte),
      length ds = n ∧
      for_ (map Z.of_nat (seq i n))
        (λ i, buf ← readfrom_mem (CMD_PROM + (i * 2)) 2;
              b0 ← byte_at buf 0;
              b1 ← byte_at buf 1;
              C_append (Z.lor (b0 ≪ 8) b1)) s
      = (Return tt,
         {| self := with_C (c ++ (word16 <$> ds)) (self s);
            trace := trace s ++ prom_events (address (self s)) i ds |}).
Proof.
  induction n as [|n IH]; intros i s c Hbus HC.
  - exists []. split; [done|]. simpl.
    rewrite !app_nil_r, (with_C_same c _ HC), state_eta. reflexivity.
  - destruct Hbus as [Hw Hr].
    destruct (Hr (trace s) (address (self s))
                 (CMD_PROM + Z.of_nat i * 2) 2%nat) as (data & Hdata & Hlen).
    destruct (two_bytes data Hlen) as (b0 & b1 & ->).
    set (w := Z.lor (byte_val b0 ≪ 8) (byte_val b1)).
    set (s1 := {| self := with_C (c ++ [w]) (self s);
                  trace := trace s ++
                    [EvRead (address (self s))
                       (CMD_PROM + Z.of_nat i * 2) 2 [b0; b1]] |}).
    destruct (IH (S i) s1 (c ++ [w])) as (ds & Hds & Hrun);
      [by split | done |].
    exists ((b0, b1) :: ds). split; [by rewrite <- Hds|].
    cbn [seq map for_].
    assert (Hstep :
      (buf ← readfrom_mem (CMD_PROM + (Z.of_nat i * 2)) 2;
       b0 ← byte_at buf 0;
       b1 ← byte_at buf 1;
       C_append (Z.lor (b0 ≪ 8) b1)) s = (Return tt, s1)).
    { unfold readfrom_mem, byte_at, C_append, log. run.
      rewrite Hdata. simpl. rewrite HC. reflexivity. }
    rewrite (bind_return _ _ _ _ _ Hstep), Hrun.
    subst s1. simpl. by rewrite <- !app_assoc.
Qed.

(** *** Frame: what leaves [self.C] alone *)

Create HintDb frame.

Lemma preserves_bind {A B} (m : M A) (k : A → M B) :
  preserves_C m → (∀ a, preserves_C (k a)) → preserves_C (m ≫= k).
Proof.
  intros Hm Hk s. specialize (Hm s). run.
  destruct (m s) as [[a|e] s1]; simpl in *; [|done].
  by rewrite Hk.
Qed.

Lemma preserves_if {A} (b : bool) (m1 m2 : M A) :
  preserves_C m1 → preserves_C m2 → preserves_C (if b then m1 else m2).
Proof. by destruct b. Qed.

Lemma preserves_ret {A} (a : A) : preserves_C (ret a).
Proof. done. Qed.

Lemma preserves_raise {A} (e : exn) : preserves_C (raise e : M A).
Proof. done. Qed.

Lemma preserves_lift {A} (o : outcome A) : preserves_C (lift o).
Proof. done. Qed.

Lemma preserves_assert (b : bool) : preserves_C (assert_ b).
Proof. by destruct b. Qed.

Lemma preserves_getattr {A} (f : MS5803 → option A) :
  preserves_C (getattr f).
Proof. intros s. unfold getattr. by destruct (f (self s)). Qed.

Lemma preserves_setattr (f : MS5803 → MS5803) :
  (∀ o, C (f o) = C o) → preserves_C (setattr f).
Proof. intros Hf s. apply Hf. Qed.

Lemma preserves_writeto_mem m buf : preserves_C (writeto_mem m buf).
Proof.
  intros s. unfold writeto_mem. by destruct (writeto_mem_ack _ _ _ _ _).
Qed.

Lemma preserves_readfrom_mem m n : preserves_C (readfrom_mem m n).
Proof.
  intros s. unfold readfrom_mem. by destruct (readfrom_mem_reply _ _ _ _ _).
Qed.

Lemma preserves_load_global name : preserves_C (load_global name).
Proof. unfold load_global. by destruct (is_global name). Qed.

Lemma preserves_sleep seconds : preserves_C (sleep seconds).
Proof. done. Qed.

Lemma preserves_sleep_ms ms : preserves_C (sleep_ms ms).
Proof. done. Qed.

Lemma preserves_byte_at buf i : preserves_C (byte_at buf i).
Proof. unfold byte_at. by destruct (buf !! i). Qed.

Lemma preserves_attr_address p : preserves_C (attr_address p).
Proof. by destruct p. Qed.

Lemma preserves_attr_sampling_time p : preserves_C (attr_sampling_time p).
Proof. by destruct p. Qed.

Lemma preserves_OSRs_getitem v : preserves_C (OSRs_getitem v).
Proof. unfold OSRs_getitem. by destruct (OSRs_get v). Qed.

Lemma preserves_index_error {A} (o : option A) : preserves_C (index_error o).
Proof. by destruct o. Qed.

#[local] Hint Resolve preserves_ret preserves_raise preserves_lift
  preserves_assert preserves_getattr preserves_writeto_mem
  preserves_readfrom_mem preserves_load_global preserves_sleep
  preserves_sleep_ms preserves_byte_at preserves_attr_address
  preserves_attr_sampling_time preserves_OSRs_getitem preserves_index_error
  : frame.

(** Decompose a computation along its binds and branches; the leaves are
    in the hint database. *)
Ltac frame :=
  intros;
  repeat first
    [ simple apply preserves_bind; [| intros ?]
    | simple apply preserves_if
    | simple apply preserves_setattr; intros ?; reflexivity
    | match goal with
      | |- preserves_C (match ?p with _ => _ end) => destruct p
      end
    | solve [auto with frame] ].

Lemma preserves_reset : preserves_C reset.
Proof. unfold reset. frame. Qed.

Lemma preserves_temp_units_set v : preserves_C (temp_units_set v).
Proof. unfold temp_units_set. frame. Qed.

Lemma preserves_pressure_units_set v : preserves_C (pressure_units_set v).
Proof. unfold pressure_units_set. frame. Qed.

Lemma preserves_temp_osr_set v : preserves_C (temp_osr_set v).
Proof. unfold temp_osr_set. frame. Qed.

Lemma preserves_pressure_osr_set v : preserves_C (pressure_osr_set v).
Proof. unfold pressure_osr_set. frame. Qed.

Lemma preserves_ADC_conversion measurement precision :
  preserves_C (_get_ADC_conversion measurement precision).
Proof. unfold _get_ADC_conversion. frame. Qed.

#[local] Hint Resolve preserves_temp_units_set preserves_pressure_units_set
  preserves_temp_osr_set preserves_pressure_osr_set preserves_ADC_conversion
  : frame.

Lemma preserves_get_measurements a b c d :
  preserves_C (get_measurements a b c d).
Proof.
  unfold get_measurements, temp_osr_get, pressure_osr_get, temp_units_get,
    pressure_units_get.
  frame.
Qed.

(** Counterexample to C2: the loader reads eight words, at the register
    offsets 0 to 7 of the PROM, and stores all eight. *)
Lemma calibration_is_eight_words :
  (construct example_sensor 0x76 (PyInt 256) (PyInt 256) PyNone PyNone []).1
  = Return tt ∧
  C (self example_session)
  = Some [0; 28986; 25092; 14595; 24979; 30347; 20787; 0] ∧
  read_of <$> trace example_session
  = [ Some (0xA0, 2%nat); Some (0xA2, 2%nat); Some (0xA4, 2%nat);
      Some (0xA6, 2%nat); Some (0xA8, 2%nat); Some (0xAA, 2%nat);
      Some (0xAC, 2%nat); Some (0xAE, 2%nat) ].
Proof. vm_compute. auto. Qed.

(** C2, amended: creating a session on a responsive bus with passing
    settings first reads eight 16-bit big-endian words from the PROM
    registers [0xA0 + 2 * i], [i = 0 .. 7], which is all the bus traffic
    of the creation, and stores them in order as the list [C] of eight
    integers below [2^16] (those at the indices 1 to 6 are the constants
    C1 to C6 of the compensation); [reset], the four setters and
    [get_measurements] leave [C] as it is. *)
Theorem construct_loads_calibration (bus : I2C) (addr : Z)
    (temp_osr pressure_osr temp_units pressure_units : pyval)
    (tr : list event) :
  responsive bus →
  is_Some (OSRs_get temp_osr) →
  is_Some (OSRs_get pressure_osr) →
  (truthy temp_units = true → in_strs temp_units TEMP_UNITS = true) →
  (truthy pressure_units = true →
   in_strs pressure_units PRESSURE_UNITS = true) →
  (∃ ds : list (byte * byte),
     length ds = 8%nat ∧
     Forall (λ w, 0 ≤ w < 2 ^ 16) (word16 <$> ds) ∧
     construct bus addr temp_osr pressure_osr temp_units pressure_units tr
     = (Return tt,
        {| self :=
             {| i2c := bus; address := addr;
                C := Some (word16 <$> ds);
                _temp_units :=
                  Some (if truthy temp_units then temp_units else PyNone);
                _pressure_units :=
                  Some (if truthy pressure_units then pressure_units
                        else PyNone);
                _temp_osr := OSRs_get temp_osr;
                _pressure_osr := OSRs_get pressure_osr |};
           trace := tr ++ prom_events addr 0 ds |})) ∧
  preserves_C reset ∧
  (∀ v, preserves_C (temp_osr_set v)) ∧
  (∀ v, preserves_C (pressure_osr_set v)) ∧
  (∀ v, preserves_C (temp_units_set v)) ∧
  (∀ v, preserves_C (pressure_units_set v)) ∧
  (∀ a b c d, preserves_C (get_measurements a b c d)).
Proof.
  intros Hbus [ot Hot] [op Hop] Htu Hpu. split.
  - destruct (prom_loop 8 0 {| self := with_C [] (alloc bus addr);
                               trace := tr |} [] Hbus eq_refl)
      as (ds & Hlen & Hrun).
    exists ds. split; [done|]. split.
    { apply Forall_fmap, Forall_forall. intros d _. apply word16_range. }
    unfold construct, __init__, _begin, range.
    erewrite bind_return; [| erewrite bind_return; [exact Hrun | done] ].
    unfold temp_osr_set, pressure_osr_set, temp_units_set,
      pressure_units_set, OSRs_getitem. run.
    rewrite Hot, Hop. simpl.
    destruct (truthy temp_units); simpl.
    + rewrite Htu by done. simpl.
      destruct (truthy pressure_units); simpl; [rewrite Hpu by done|]; done.
    + destruct (truthy pressure_units); simpl; [rewrite Hpu by done|]; done.
  - repeat split; intros.
    + apply preserves_reset.
    + apply preserves_temp_osr_set.
    + apply preserves_pressure_osr_set.
    + apply preserves_temp_units_set.
    + apply preserves_pressure_units_set.
    + apply preserves_get_measurements.
Qed.

Lemma construct_loads_calibration_witness :
  ∃ ds : list (byte * byte),
    length ds = 8%nat ∧
    Forall (λ w, 0 ≤ w < 2 ^ 16) (word16 <$> ds) ∧
    construct example_sensor 0x76 (PyInt 256) (PyInt 256) PyNone PyNone []
    = (Return tt,
       {| self :=
            {| i2c := example_sensor; address := 0x76;
               C := Some (word16 <$> ds);
               _temp_units := Some PyNone;
               _pressure_units := Some PyNone;
               _temp_osr := Some (OSR.make 0x00 1);
               _pressure_osr := Some (OSR.make 0x00 1) |};
          trace := [] ++ prom_events 0x76 0 ds |}).
Proof.
  apply (construct_loads_calibration example_sensor 0x76
           (PyInt 256) (PyInt 256) PyNone PyNone []).
  - apply sensor_responsive.
  - exists (OSR.make 0x00 1). reflexivity.
  - exists (OSR.make 0x00 1). reflexivity.
  - discriminate.
  - discriminate.
Defined.

(** * Further properties of the driver *)

(** ** Unit conversion *)

(** X1: [convert_temperature] returns a value exactly for the units that
    the [temp_units] setter accepts (the members of [TEMP_UNITS]); for
    any other argument it raises, its result variable being unassigned. *)
Theorem convert_temperature_defined (temp : Z) (units : pyval) :
  (in_strs units TEMP_UNITS = true →
   ∃ r, convert_temperature temp units = Return r) ∧
  (in_strs units TEMP_UNITS = false →
   convert_temperature temp units = Raise NameError).
Proof.
  unfold convert_temperature, in_strs, TEMP_UNITS. simpl.
  destruct (eq_str units "fahrenheit"), (eq_str units "celcius"); simpl;
    split; intros; try discriminate; eauto.
Qed.

Lemma convert_temperature_defined_witness :
  (∃ r, convert_temperature 2000 (PyStr "fahrenheit") = Return r) ∧
  convert_temperature 2000 (PyStr "kelvin") = Raise NameError.
Proof.
  split.
  - destruct (convert_temperature_defined 2000 (PyStr "fahrenheit"))
      as (H & _).
    exact (H eq_refl).
  - destruct (convert_temperature_defined 2000 (PyStr "kelvin")) as (_ & H).
    exact (H eq_refl).
Defined.

(** X2: [convert_pressure] returns a value exactly for the members of
    [PRESSURE_UNITS]; in particular it raises for both temperature
    units. *)
Theorem convert_pressure_defined (pressure : Z) (units : pyval) :
  (in_strs units PRESSURE_UNITS = true →
   ∃ r, convert_pressure pressure units = Return r) ∧
  (in_strs units PRESSURE_UNITS = false →
   convert_pressure pressure units = Raise NameError) ∧
  (in_strs units TEMP_UNITS = true →
   convert_pressure pressure units = Raise NameError).
Proof.
  unfold convert_pressure, in_strs, PRESSURE_UNITS, TEMP_UNITS. simpl.
  destruct units as [| |u|]; simpl; [by repeat split.. | | by repeat split].
  destruct (String.eqb_spec u "pascals") as [->|]; simpl;
    [repeat split; intros; try discriminate; eauto|].
  destruct (String.eqb_spec u "bar") as [->|]; simpl;
    repeat split; intros; try discriminate; eauto.
Qed.

Lemma convert_pressure_defined_witness :
  (∃ r, convert_pressure 8486 (PyStr "bar") = Return r) ∧
  convert_pressure 8486 (PyStr "psi") = Raise NameError ∧
  convert_pressure 8486 (PyStr "celcius") = Raise NameError.
Proof.
  split; [| split].
  - destruct (convert_pressure_defined 8486 (PyStr "bar")) as (H & _).
    exact (H eq_refl).
  - destruct (convert_pressure_defined 8486 (PyStr "psi")) as (_ & H & _).
    exact (H eq_refl).
  - destruct (convert_pressure_defined 8486 (PyStr "celcius"))
      as (_ & _ & H).
    exact (H eq_refl).
Defined.

(** ** The properties read back *)

Lemma in_strs_inside (u : string) (l : list string) :
  u ∈ l → in_strs (PyStr u) l = true.
Proof.
  unfold in_strs. induction l as [|a l IH]; intros Hu.
  - by apply elem_of_nil in Hu.
  - simpl. apply elem_of_cons in Hu as [-> | Hl].
    + by rewrite String.eqb_refl.
    + rewrite (IH Hl). apply orb_true_r.
Qed.

Lemma listed_unit_truthy (u : string) :
  u ∈ TEMP_UNITS ∨ u ∈ PRESSURE_UNITS → truthy (PyStr u) = true.
Proof.
  intros [H | H];
    repeat (apply elem_of_cons in H as [-> | H]; [reflexivity|]);
    by apply elem_of_nil in H.
Qed.

(** X3: assigning a key of [OSRs] to [temp_osr] or [pressure_osr] and
    reading the property back gives the table entry (the pair of address
    modifier and sampling time), not the key; nothing else in the state
    changes. *)
Theorem osr_set_then_get (s : state) (k : Z) (o : OSR.t) :
  OSRs !! k = Some o →
  (temp_osr_set (PyInt k);; temp_osr_get) s
  = (Return (PyOSR o),
     {| self := with_temp_osr o (self s); trace := trace s |}) ∧
  (pressure_osr_set (PyInt k);; pressure_osr_get) s
  = (Return (PyOSR o),
     {| self := with_pressure_osr o (self s); trace := trace s |}).
Proof.
  intros Hk.
  unfold temp_osr_set, temp_osr_get, pressure_osr_set, pressure_osr_get,
    OSRs_getitem. run. rewrite Hk. simpl. done.
Qed.

Lemma osr_set_then_get_witness :
  (temp_osr_set (PyInt 4096);; temp_osr_get) example_session
  = (Return (PyOSR (OSR.make 0x08 10)),
     {| self := with_temp_osr (OSR.make 0x08 10) (self example_session);
        trace := trace example_session |}) ∧
  (pressure_osr_set (PyInt 4096);; pressure_osr_get) example_session
  = (Return (PyOSR (OSR.make 0x08 10)),
     {| self := with_pressure_osr (OSR.make 0x08 10) (self example_session);
        trace := trace example_session |}).
Proof.
  apply (osr_set_then_get example_session 4096 (OSR.make 0x08 10)).
  reflexivity.
Defined.

(** X4: assigning a listed unit to [temp_units] and reading the property
    back gives that unit, and assigning [None] gives [None]; nothing else
    in the state changes. *)
Theorem temp_units_set_then_get (s : state) (u : string) :
  u ∈ TEMP_UNITS →
  (temp_units_set (PyStr u);; temp_units_get) s
  = (Return (PyStr u),
     {| self := with_temp_units (PyStr u) (self s); trace := trace s |}) ∧
  (temp_units_set PyNone;; temp_units_get) s
  = (Return PyNone,
     {| self := with_temp_units PyNone (self s); trace := trace s |}).
Proof.
  intros Hu. unfold temp_units_set, temp_units_get.
  rewrite (listed_unit_truthy u (or_introl Hu)), (in_strs_inside u _ Hu).
  done.
Qed.

Lemma temp_units_set_then_get_witness :
  (temp_units_set (PyStr "fahrenheit");; temp_units_get) example_session
  = (Return (PyStr "fahrenheit"),
     {| self := with_temp_units (PyStr "fahrenheit") (self example_session);
        trace := trace example_session |}) ∧
  (temp_units_set PyNone;; temp_units_get) example_session
  = (Return PyNone,
     {| self := with_temp_units PyNone (self example_session);
        trace := trace example_session |}).
Proof.
  apply (temp_units_set_then_get example_session "fahrenheit").
  apply elem_of_cons. by left.
Defined.

(** ** The second-order terms *)

Lemma shiftr_nonneg (a n : Z) : 0 ≤ a → 0 ≤ a ≫ n.
Proof. intros. by apply Z.shiftr_nonneg. Qed.

(** X5: the three second-order terms are never negative, so the
    correction never raises the temperature, the offset or the
    sensitivity; and from 2000 upward the sensitivity is not corrected. *)
Theorem second_order_nonneg (dT temp : Z) :
  0 ≤ (second_order dT temp).1.1 ∧
  0 ≤ (second_order dT temp).1.2 ∧
  0 ≤ (second_order dT temp).2 ∧
  (second_order dT (Z.max temp 2000)).2 = 0.
Proof.
  unfold second_order.
  assert (Hd : 0 ≤ dT * dT) by apply Z.square_nonneg.
  assert (Ht : 0 ≤ (temp - 2000) * (temp - 2000)) by apply Z.square_nonneg.
  assert (Hl : 0 ≤ (temp + 1500) * (temp + 1500)) by apply Z.square_nonneg.
  assert (H33 : 0 ≤ (dT * dT) ≫ 33) by (apply shiftr_nonneg; lia).
  assert (H37 : 0 ≤ (7 * (dT * dT)) ≫ 37) by (apply shiftr_nonneg; lia).
  assert (H1 : 0 ≤ (3 * ((temp - 2000) * (temp - 2000))) ≫ 1)
    by (apply shiftr_nonneg; lia).
  assert (H3 : 0 ≤ (5 * ((temp - 2000) * (temp - 2000))) ≫ 3)
    by (apply shiftr_nonneg; lia).
  assert (H4 : 0 ≤ ((temp - 2000) * (temp - 2000)) ≫ 4)
    by (apply shiftr_nonneg; lia).
  assert (H2 : 0 ≤ ((temp + 1500) * (temp + 1500)) ≪ 2)
    by (apply Z.shiftl_nonneg; lia).
  repeat split.
  - destruct (temp <? 2000), (temp <? -1500); cbn [fst snd]; lia.
  - destruct (temp <? 2000), (temp <? -1500); cbn [fst snd]; lia.
  - destruct (temp <? 2000), (temp <? -1500); cbn [fst snd]; lia.
  - destruct (Z.ltb_spec (Z.max temp 2000) 2000); [lia | done].
Qed.

(** X6: the temperature that the compensation returns is never above the
    first-order temperature [2000 + ((dT * C6) >> 23)], whatever the raw
    values and the calibration words. *)
Theorem compensated_temperature_le_first_order
    (c0 c1 c2 c3 c4 c5 c6 c7 raw_temp raw_pressure : Z) :
  ∃ temp pressure,
    compensate [c0; c1; c2; c3; c4; c5; c6; c7] raw_temp raw_pressure
    = Some (temp, pressure) ∧
    temp ≤ (((raw_temp - (c5 ≪ 8)) * c6) ≫ 23) + 2000.
Proof.
  unfold compensate. cbn [mbind option_bind lookup list_lookup].
  pose proof (second_order_nonneg (raw_temp - (c5 ≪ 8))
                ((((raw_temp - (c5 ≪ 8)) * c6) ≫ 23) + 2000)) as (HT & _).
  destruct (second_order _ _) as [[T2 OFF2] SENS2]. cbn [fst snd] in HT.
  eexists _, _. split; [reflexivity | lia].
Qed.

(** ** Failures of one conversion *)

(** X7: [_get_ADC_conversion] fails early. A precision that is not an
    [OSR] entry raises [AttributeError] with no bus traffic; a refused
    command raises [OSError] with nothing slept or read; a failed read
    raises [OSError] after the command and the sleep; a read of fewer
    than three bytes raises [IndexError]. *)
Theorem ADC_conversion_errors (s : state) (measurement : Z) (o : OSR.t) :
  let bus := i2c (self s) in
  let addr := address (self s) in
  let command := CMD_ADC_CONV + measurement + OSR.address o in
  let started :=
    trace s ++ [EvWrite addr command []; EvSleepMs (OSR.sampling_time o)] in
  (∀ v, (∀ o', v ≠ PyOSR o') →
        _get_ADC_conversion measurement v s = (Raise AttributeError, s)) ∧
  (writeto_mem_ack bus (trace s) addr command [] = false →
   _get_ADC_conversion measurement (PyOSR o) s = (Raise OSError, s)) ∧
  (writeto_mem_ack bus (trace s) addr command [] = true →
   readfrom_mem_reply bus started addr CMD_ADC_READ 3 = None →
   _get_ADC_conversion measurement (PyOSR o) s
   = (Raise OSError, {| self := self s; trace := started |})) ∧
  (writeto_mem_ack bus (trace s) addr command [] = true →
   ∀ data, readfrom_mem_reply bus started addr CMD_ADC_READ 3 = Some data →
           (length data < 3)%nat →
           (_get_ADC_conversion measurement (PyOSR o) s).1
           = Raise IndexError).
Proof.
  intros bus addr command started. subst bus addr command started.
  unfold _get_ADC_conversion, writeto_mem, sleep_ms, readfrom_mem,
    load_global, byte_at, log. run.
  split; [| split; [| split]].
  - intros v Hv. destruct v as [| | |o']; try done. by destruct (Hv o').
  - by intros ->.
  - intros -> Hr. simpl. rewrite <- app_assoc. simpl. by rewrite Hr.
  - intros -> data Hr Hlen. simpl. rewrite <- app_assoc. simpl.
    rewrite Hr. simpl.
    destruct data as [|b0 [|b1 [|b2 data]]]; simpl in *; try done. lia.
Qed.

Lemma ADC_conversion_errors_witness :
  _get_ADC_conversion TEMPERATURE (PyInt 512) example_session
  = (Raise AttributeError, example_session) ∧
  _get_ADC_conversion TEMPERATURE (PyOSR (OSR.make 0x02 2))
    {| self := alloc deaf_bus 0x76; trace := [] |}
  = (Raise OSError, {| self := alloc deaf_bus 0x76; trace := [] |}) ∧
  _get_ADC_conversion TEMPERATURE (PyOSR (OSR.make 0x02 2))
    {| self := alloc (faulty_sensor [] CMD_ADC_READ) 0x76; trace := [] |}
  = (Raise OSError,
     {| self := alloc (faulty_sensor [] CMD_ADC_READ) 0x76;
        trace := [EvWrite 0x76 0x52 []; EvSleepMs 2] |}) ∧
  (_get_ADC_conversion TEMPERATURE (PyOSR (OSR.make 0x02 2))
     {| self := alloc short_bus 0x76; trace := [] |}).1
  = Raise IndexError.
Proof.
  split; [| split; [| split]].
  - destruct (ADC_conversion_errors example_session TEMPERATURE
                (OSR.make 0x02 2)) as (H & _).
    apply H. discriminate.
  - destruct (ADC_conversion_errors
                {| self := alloc deaf_bus 0x76; trace := [] |}
                TEMPERATURE (OSR.make 0x02 2)) as (_ & H & _).
    exact (H eq_refl).
  - destruct (ADC_conversion_errors
                {| self := alloc (faulty_sensor [] CMD_ADC_READ) 0x76;
                   trace := [] |}
                TEMPERATURE (OSR.make 0x02 2)) as (_ & _ & H & _).
    exact (H eq_refl eq_refl).
  - destruct (ADC_conversion_errors
                {| self := alloc short_bus 0x76; trace := [] |}
                TEMPERATURE (OSR.make 0x02 2)) as (_ & _ & _ & H).
    apply (H eq_refl [Byte.x00] eq_refl). simpl. lia.
Defined.

(** ** A whole call of [get_measurements] without OSR arguments *)

Lemma conversion_run (s : state) (measurement : Z) (o : OSR.t) :
  responsive (i2c (self s)) →
  ∃ b : byte * byte * byte,
    _get_ADC_conversion measurement (PyOSR o) s
    = (Return (word24 b),
       {| self := self s;
          trace := trace s
                   ++ conversion_events (address (self s)) measurement o b |}).
Proof.
  intros Hbus.
  destruct (ADC_conversion_run s measurement o Hbus) as (b0 & b1 & b2 & H).
  by exists (b0, b1, b2).
Qed.

Lemma units_tail (tu pu : pyval) (temp pressure : Z) (s : state) :
  (t ← (if truthy tu then lift (convert_temperature temp tu)
        else ret (NInt temp));
   p ← (if truthy pu then lift (convert_pressure pressure pu)
        else ret (NInt pressure));
   ret (t, p)) s
  = (in_units tu pu temp pressure, s).
Proof.
  unfold in_units. run.
  destruct (truthy tu); simpl;
    [destruct (convert_temperature temp tu); simpl; [|done] |];
    (destruct (truthy pu); simpl;
     [by destruct (convert_pressure pressure pu) | done]).
Qed.

(** What a call without OSR arguments does, in full: the units that are
    supplied are stored, the temperature conversion and then the pressure
    conversion run, and the compensated pair is converted with the units
    in effect, where an omitted [pressure_units] takes the temperature
    unit in effect. *)
Lemma get_measurements_run (s : state) (ot op : OSR.t) (ut tu pu : pyval)
    (c0 c1 c2 c3 c4 c5 c6 c7 : Z) :
  responsive (i2c (self s)) →
  C (self s) = Some [c0; c1; c2; c3; c4; c5; c6; c7] →
  _temp_osr (self s) = Some ot →
  _pressure_osr (self s) = Some op →
  _temp_units (self s) = Some ut →
  (truthy tu = true → in_strs tu TEMP_UNITS = true) →
  (truthy pu = true → in_strs pu PRESSURE_UNITS = true) →
  ∃ bt bp : byte * byte * byte,
    let tu' := if truthy tu then tu else ut in
    let pu' := if truthy pu then pu else tu' in
    let r := spec_compensation c1 c2 c3 c4 c5 c6 (word24 bt) (word24 bp) in
    get_measurements PyNone PyNone tu pu s
    = (in_units tu' pu' r.1 r.2,
       {| self := after_units with_pressure_units pu
                    (after_units with_temp_units tu (self s));
          trace := trace s
                   ++ measurement_events (address (self s)) ot op bt bp |}).
Proof.
  intros Hbus HC Hot Hop Hut Htu Hpu.
  set (tu' := if truthy tu then tu else ut).
  set (pu' := if truthy pu then pu else tu').
  set (o1 := after_units with_temp_units tu (self s)).
  set (o2 := after_units with_pressure_units pu o1).
  assert (G1 : temp_osr_get s = (Return (PyOSR ot), s)).
  { unfold temp_osr_get. run. by rewrite Hot. }
  assert (G2 : pressure_osr_get s = (Return (PyOSR op), s)).
  { unfold pressure_osr_get. run. by rewrite Hop. }
  assert (G3 : (if negb (truthy tu) then temp_units_get
                else temp_units_set tu;; ret tu) s
               = (Return tu', {| self := o1; trace := trace s |})).
  { subst tu' o1. unfold temp_units_get, temp_units_set, after_units. run.
    destruct (truthy tu); simpl.
    - by rewrite Htu.
    - by rewrite Hut, state_eta. }
  assert (G4 : (if negb (truthy pu) then pressure_units_get
                else pressure_units_set pu;; ret pu)
                 {| self := o1; trace := trace s |}
               = (Return pu', {| self := o2; trace := trace s |})).
  { subst pu' o2. unfold pressure_units_get, pressure_units_set,
      after_units. run.
    destruct (truthy pu); simpl.
    - by rewrite Hpu.
    - subst o1 tu'. unfold after_units. destruct (truthy tu); simpl; [done|].
      by rewrite Hut. }
  assert (Hself : i2c o2 = i2c (self s) ∧ address o2 = address (self s)
                  ∧ C o2 = C (self s)).
  { subst o2 o1. unfold after_units.
    by destruct (truthy pu), (truthy tu). }
  destruct Hself as (Hi & Ha & Hc).
  destruct (conversion_run {| self := o2; trace := trace s |}
              TEMPERATURE ot) as (bt & Ht); [by rewrite <- Hi in Hbus|].
  set (s1 := {| self := _; trace := _ ++ _ |}) in Ht.
  destruct (conversion_run s1 PRESSURE op) as (bp & Hp);
    [by rewrite <- Hi in Hbus|].
  set (s2 := {| self := self s1; trace := _ |}) in Hp.
  assert (G5 : getattr C s2 = (Return [c0; c1; c2; c3; c4; c5; c6; c7], s2)).
  { run. by rewrite Hc, HC. }
  exists bt, bp. cbv zeta.
  unfold get_measurements. simpl (negb (truthy PyNone)). cbv iota.
  rewrite (bind_return _ _ _ _ _ G1), (bind_return _ _ _ _ _ G2),
    (bind_return _ _ _ _ _ G3), (bind_return _ _ _ _ _ G4),
    (bind_return _ _ _ _ _ Ht), (bind_return _ _ _ _ _ Hp),
    (bind_return _ _ _ _ _ G5).
  rewrite compensate_spec.
  destruct (spec_compensation _ _ _ _ _ _ _ _) as [T P].
  unfold index_error.
  change (ret (T, P) ≫= ?k) with (k (T, P)). cbv beta iota.
  rewrite units_tail. f_equal.
  subst s2 s1. simpl. unfold measurement_events.
  by rewrite Ha, <- app_assoc.
Qed.

(** X8: a call without OSR arguments whose unit arguments are each
    omitted or listed, on a responsive bus and a session with its OSRs,
    temperature unit and calibration stored, performs exactly two
    conversions, the temperature one first and each with the stored OSR of
    its channel: command, sleep, 3-byte read, twice, and nothing else,
    whether or not the unit conversion then succeeds. *)
Theorem get_measurements_traffic (s : state) (ot op : OSR.t)
    (ut tu pu : pyval) (c0 c1 c2 c3 c4 c5 c6 c7 : Z) :
  responsive (i2c (self s)) →
  C (self s) = Some [c0; c1; c2; c3; c4; c5; c6; c7] →
  _temp_osr (self s) = Some ot →
  _pressure_osr (self s) = Some op →
  _temp_units (self s) = Some ut →
  (truthy tu = true → in_strs tu TEMP_UNITS = true) →
  (truthy pu = true → in_strs pu PRESSURE_UNITS = true) →
  ∃ t0 t1 t2 p0 p1 p2 : byte,
    trace (get_measurements PyNone PyNone tu pu s).2
    = trace s ++
      [ EvWrite (address (self s)) (0x40 + 0x10 + OSR.address ot) [];
        EvSleepMs (OSR.sampling_time ot);
        EvRead (address (self s)) 0x00 3 [t0; t1; t2];
        EvWrite (address (self s)) (0x40 + 0x00 + OSR.address op) [];
        EvSleepMs (OSR.sampling_time op);
        EvRead (address (self s)) 0x00 3 [p0; p1; p2] ].
Proof.
  intros Hbus HC Hot Hop Hut Htu Hpu.
  destruct (get_measurements_run s ot op ut tu pu c0 c1 c2 c3 c4 c5 c6 c7
              Hbus HC Hot Hop Hut Htu Hpu)
    as ([[t0 t1] t2] & [[p0 p1] p2] & H).
  exists t0, t1, t2, p0, p1, p2. cbv zeta in H. by rewrite H.
Qed.

Lemma get_measurements_traffic_witness :
  ∃ t0 t1 t2 p0 p1 p2 : byte,
    trace (get_measurements PyNone PyNone (PyStr "celcius") PyNone
             example_session).2
    = trace example_session ++
      [ EvWrite (address (self example_session)) (0x40 + 0x10 + 0x00) [];
        EvSleepMs 1;
        EvRead (address (self example_session)) 0x00 3 [t0; t1; t2];
        EvWrite (address (self example_session)) (0x40 + 0x00 + 0x00) [];
        EvSleepMs 1;
        EvRead (address (self example_session)) 0x00 3 [p0; p1; p2] ].
Proof.
  apply (get_measurements_traffic example_session
           (OSR.make 0x00 1) (OSR.make 0x00 1) PyNone
           (PyStr "celcius") PyNone
           0 28986 25092 14595 24979 30347 20787 0).
  - exact example_session_responsive.
  - exact example_session_C.
  - reflexivity.
  - reflexivity.
  - reflexivity.
  - reflexivity.
  - discriminate.
Defined.



Lemma temp_unit_truthy (v : pyval) :
  in_strs v TEMP_UNITS = true → truthy v = true.
Proof.
  destruct v as [| |x|]; try done.
  unfold in_strs, TEMP_UNITS. simpl.
  destruct (String.eqb_spec x "fahrenheit") as [->|]; [done|].
  destruct (String.eqb_spec x "celcius") as [->|]; done.
Qed.

(** X10: in a call that omits both OSR arguments and [pressure_units],
    on a responsive bus, when a listed temperature unit is in effect,
    stored or supplied, the call performs its two conversions and then
    raises [NameError]: the temperature unit is handed to
    [convert_pressure]. The temperature unit in effect is left stored. A
    temperature unit can only be used together with an explicit
    [pressure_units] argument, whatever pressure unit is stored. *)
Theorem get_measurements_needs_pressure_units (s : state) (ot op : OSR.t)
    (ut tu : pyval) (c0 c1 c2 c3 c4 c5 c6 c7 : Z) :
  responsive (i2c (self s)) →
  C (self s) = Some [c0; c1; c2; c3; c4; c5; c6; c7] →
  _temp_osr (self s) = Some ot →
  _pressure_osr (self s) = Some op →
  _temp_units (self s) = Some ut →
  in_strs (if truthy tu then tu else ut) TEMP_UNITS = true →
  let call := get_measurements PyNone PyNone tu PyNone s in
  ∃ t0 t1 t2 p0 p1 p2 : byte,
    call.1 = Raise NameError ∧
    trace call.2
    = trace s ++
      [ EvWrite (address (self s)) (0x40 + 0x10 + OSR.address ot) [];
        EvSleepMs (OSR.sampling_time ot);
        EvRead (address (self s)) 0x00 3 [t0; t1; t2];
        EvWrite (address (self s)) (0x40 + 0x00 + OSR.address op) [];
        EvSleepMs (OSR.sampling_time op);
        EvRead (address (self s)) 0x00 3 [p0; p1; p2] ] ∧
    _temp_units (self call.2) = Some (if truthy tu then tu else ut) ∧
    _pressure_units (self call.2) = _pressure_units (self s).
Proof.
  intros Hbus HC Hot Hop Hut Hin call. subst call.
  assert (Htu : truthy tu = true → in_strs tu TEMP_UNITS = true).
  { intros Ht. by rewrite Ht in Hin. }
  destruct (get_measurements_run s ot op ut tu PyNone
              c0 c1 c2 c3 c4 c5 c6 c7 Hbus HC Hot Hop Hut Htu)
    as ([[t0 t1] t2] & [[p0 p1] p2] & H); [done|].
  exists t0, t1, t2, p0, p1, p2.
  cbv zeta in H. rewrite H. cbn [fst snd truthy self trace].
  split; [| split; [done | split]].
  - set (u := if truthy tu then tu else ut) in *.
    set (r := spec_compensation _ _ _ _ _ _ _ _).
    pose proof (temp_unit_truthy u Hin) as Hu.
    unfold in_units. rewrite Hu.
    destruct (convert_temperature_defined r.1 u) as [Ht _].
    destruct (Ht Hin) as [t ->].
    destruct (convert_pressure_defined r.2 u) as (_ & _ & Hp).
    by rewrite (Hp Hin).
  - unfold after_units. cbn [truthy].
    destruct (truthy tu); [done | by rewrite Hut].
  - unfold after_units. cbn [truthy]. by destruct (truthy tu).
Qed.

Lemma get_measurements_needs_pressure_units_witness :
  let call :=
    get_measurements PyNone PyNone (PyStr "celcius") PyNone example_session in
  ∃ t0 t1 t2 p0 p1 p2 : byte,
    call.1 = Raise NameError ∧
    trace call.2
    = trace example_session ++
      [ EvWrite (address (self example_session)) (0x40 + 0x10 + 0x00) [];
        EvSleepMs 1;
        EvRead (address (self example_session)) 0x00 3 [t0; t1; t2];
        EvWrite (address (self example_session)) (0x40 + 0x00 + 0x00) [];
        EvSleepMs 1;
        EvRead (address (self example_session)) 0x00 3 [p0; p1; p2] ] ∧
    _temp_units (self call.2) = Some (PyStr "celcius") ∧
    _pressure_units (self call.2) = _pressure_units (self example_session).
Proof.
  apply (get_measurements_needs_pressure_units example_session
           (OSR.make 0x00 1) (OSR.make 0x00 1) PyNone (PyStr "celcius")
           0 28986 25092 14595 24979 30347 20787 0).
  - exact example_session_responsive.
  - exact example_session_C.
  - reflexivity.
  - reflexivity.
  - reflexivity.
  - reflexivity.
Defined.

(** ** OSR arguments of [get_measurements] *)

Lemma keeps_bind {A B X} (f : state → X) (m : M A) (k : A → M B) :
  keeps f m → (∀ a, keeps f (k a)) → keeps f (m ≫= k).
Proof.
  intros Hm Hk s. specialize (Hm s). run.
  destruct (m s) as [[a|e] s1]; simpl in *; [|done].
  by rewrite Hk.
Qed.

Lemma keeps_if {A X} (f : state → X) (b : bool) (m1 m2 : M A) :
  keeps f m1 → keeps f m2 → keeps f (if b then m1 else m2).
Proof. by destruct b. Qed.

Lemma keeps_ret {A X} (f : state → X) (a : A) : keeps f (ret a).
Proof. done. Qed.

Lemma keeps_assert {X} (f : state → X) (b : bool) : keeps f (assert_ b).
Proof. by destruct b. Qed.

Lemma keeps_getattr {A X} (f : state → X) (g : MS5803 → option A) :
  keeps f (getattr g).
Proof. intros s. unfold getattr. by destruct (g (self s)). Qed.

Lemma keeps_trace_setattr (g : MS5803 → MS5803) : keeps trace (setattr g).
Proof. done. Qed.

Lemma keeps_OSRs_getitem {X} (f : state → X) v : keeps f (OSRs_getitem v).
Proof. unfold OSRs_getitem. by destruct (OSRs_get v). Qed.

(** The four configuration steps of [get_measurements] send nothing. *)
Ltac quiet :=
  intros;
  repeat first
    [ simple apply keeps_bind; [| intros ?]
    | simple apply keeps_if
    | simple apply keeps_ret
    | simple apply keeps_assert
    | simple apply keeps_getattr
    | simple apply keeps_trace_setattr
    | simple apply keeps_OSRs_getitem ].

Lemma keeps_trace_osr_step (stored : MS5803 → option OSR.t)
    (set : OSR.t → MS5803 → MS5803) (v : pyval) :
  keeps trace
    (if negb (truthy v)
     then (o ← getattr stored; ret (PyOSR o))
     else (assert_ (bool_decide (is_Some (OSRs_get v)));;
           o ← OSRs_getitem v; setattr (set o));; ret v).
Proof. quiet. Qed.

Lemma keeps_trace_units_step (set : pyval → MS5803 → MS5803)
    (l : list string) (v : pyval) :
  keeps trace
    (if negb (truthy v)
     then getattr _temp_units
     else (if truthy v
           then assert_ (in_strs v l);; setattr (set v)
           else setattr (set PyNone));; ret v).
Proof. quiet. Qed.

Lemma osr_step_returns_int (stored : MS5803 → option OSR.t)
    (set : OSR.t → MS5803 → MS5803) (v a : pyval) (s s' : state) :
  truthy v = true →
  (if negb (truthy v)
   then (o ← getattr stored; ret (PyOSR o))
   else (assert_ (bool_decide (is_Some (OSRs_get v)));;
         o ← OSRs_getitem v; setattr (set o));; ret v) s
  = (Return a, s') →
  ∃ z, a = PyInt z.
Proof.
  intros ->. unfold OSRs_getitem. run.
  destruct v as [|z|u|o]; simpl; try discriminate.
  destruct (OSRs !! z); simpl; [|discriminate].
  intros [= <- _]. eauto.
Qed.

Lemma raised_bind {A B} (I : state → Prop) (P : A → Prop)
    (m : M A) (k : A → M B) (s : state) :
  I (m s).2 →
  (∀ a s', m s = (Return a, s') → P a) →
  (∀ a s', P a → I s' → raised I (k a s')) →
  raised I ((m ≫= k) s).
Proof.
  intros HI HP Hk. run.
  destruct (m s) as [[a|e] s'] eqn:E; simpl in *.
  - apply Hk; [by eapply HP | done].
  - split; [eauto | done].
Qed.

Lemma conversion_of_int_raises {B} (I : state → Prop) (measurement z : Z)
    (k : Z → M B) (s : state) :
  I s → raised I ((_get_ADC_conversion measurement (PyInt z) ≫= k) s).
Proof. intros HI. split; [by exists AttributeError | done]. Qed.

(** X11: a call that supplies [temp_osr] or [pressure_osr] never returns
    a reading, whatever the argument and the state: either the setter
    rejects it, or the integer it accepted is handed to
    [_get_ADC_conversion], which raises. With [temp_osr] supplied nothing
    is sent on the bus. Readings are only ever returned by calls that omit
    both OSR arguments. *)
Theorem get_measurements_supplied_osr_never_returns
    (temp_osr pressure_osr temp_units pressure_units : pyval) (s : state) :
  let call :=
    get_measurements temp_osr pressure_osr temp_units pressure_units s in
  (truthy temp_osr = true →
   (∃ e, call.1 = Raise e) ∧ trace call.2 = trace s) ∧
  (truthy pressure_osr = true → ∃ e, call.1 = Raise e).
Proof.
  intros call. subst call.
  unfold get_measurements, temp_osr_get, temp_osr_set, pressure_osr_get,
    pressure_osr_set, temp_units_get, temp_units_set, pressure_units_get,
    pressure_units_set.
  split.
  - intros Ht.
    apply (raised_bind (λ s', trace s' = trace s) (λ a, ∃ z, a = PyInt z)).
    { apply keeps_trace_osr_step. }
    { intros a s'. by apply osr_step_returns_int. }
    intros a s1 [z ->] I1.
    apply (raised_bind (λ s', trace s' = trace s) (λ _, True)); [|done|].
    { by rewrite keeps_trace_osr_step. }
    intros po s2 _ I2.
    apply (raised_bind (λ s', trace s' = trace s) (λ _, True)); [|done|].
    { by rewrite keeps_trace_units_step. }
    intros tu s3 _ I3.
    apply (raised_bind (λ s', trace s' = trace s) (λ _, True)); [|done|].
    { by rewrite keeps_trace_units_step. }
    intros pu s4 _ I4.
    by apply conversion_of_int_raises.
  - intros Hp.
    apply proj1 with (B := True).
    apply (raised_bind (λ _, True) (λ _, True)); [done..|].
    intros to s1 _ _.
    apply (raised_bind (λ _, True) (λ a, ∃ z, a = PyInt z)); [done| |].
    { intros a s'. by apply osr_step_returns_int. }
    intros a s2 [z ->] _.
    apply (raised_bind (λ _, True) (λ _, True)); [done..|].
    intros tu s3 _ _.
    apply (raised_bind (λ _, True) (λ _, True)); [done..|].
    intros pu s4 _ _.
    apply (raised_bind (λ _, True) (λ _, True)); [done..|].
    intros raw_temp s5 _ _.
    by apply conversion_of_int_raises.
Qed.

Lemma get_measurements_supplied_osr_never_returns_witness :
  ((∃ e, (get_measurements (PyInt 4096) PyNone PyNone PyNone
            example_session).1 = Raise e) ∧
   trace (get_measurements (PyInt 4096) PyNone PyNone PyNone
            example_session).2 = trace example_session) ∧
  (∃ e, (get_measurements PyNone (PyInt 4096) PyNone PyNone
           example_session).1 = Raise e).
Proof.
  split.
  - destruct (get_measurements_supplied_osr_never_returns
                (PyInt 4096) PyNone PyNone PyNone example_session)
      as (H & _).
    exact (H eq_refl).
  - destruct (get_measurements_supplied_osr_never_returns
                PyNone (PyInt 4096) PyNone PyNone example_session)
      as (_ & H).
    exact (H eq_refl).
Defined.

(** X12: [get_measurements] tests its arguments for truth, not for
    [None]: an OSR argument of 0 and a unit argument that is the empty
    string behave exactly as omitted arguments. *)
Theorem get_measurements_falsy_arguments
    (temp_osr pressure_osr temp_units pressure_units : pyval) (s : state) :
  truthy temp_osr = false →
  truthy pressure_osr = false →
  truthy temp_units = false →
  truthy pressure_units = false →
  get_measurements temp_osr pressure_osr temp_units pressure_units s
  = get_measurements PyNone PyNone PyNone PyNone s.
Proof.
  intros H1 H2 H3 H4. unfold get_measurements.
  rewrite H1, H2, H3, H4. reflexivity.
Qed.

Lemma get_measurements_falsy_arguments_witness :
  get_measurements (PyInt 0) (PyInt 0) (PyStr EmptyString)
    (PyStr EmptyString) example_session
  = get_measurements PyNone PyNone PyNone PyNone example_session.
Proof.
  apply (get_measurements_falsy_arguments (PyInt 0) (PyInt 0)
           (PyStr EmptyString) (PyStr EmptyString) example_session);
    reflexivity.
Defined.

(** ** Failures inside a call *)

(** X13: when one of the two conversions of a call raises, the call
    raises the same exception in the same state: the pressure conversion
    is not started after a failed temperature conversion, and the
    compensation is not run on a partial reading. *)
Theorem get_measurements_conversion_failure (s : state) (ot op : OSR.t)
    (ut : pyval) :
  _temp_osr (self s) = Some ot →
  _pressure_osr (self s) = Some op →
  _temp_units (self s) = Some ut →
  (∀ e s',
     _get_ADC_conversion TEMPERATURE (PyOSR ot) s = (Raise e, s') →
     get_measurements PyNone PyNone PyNone PyNone s = (Raise e, s')) ∧
  (∀ raw_temp s1 e s',
     _get_ADC_conversion TEMPERATURE (PyOSR ot) s = (Return raw_temp, s1) →
     _get_ADC_conversion PRESSURE (PyOSR op) s1 = (Raise e, s') →
     get_measurements PyNone PyNone PyNone PyNone s = (Raise e, s')).
Proof.
  intros Hot Hop Hut.
  assert (G1 : temp_osr_get s = (Return (PyOSR ot), s)).
  { unfold temp_osr_get. run. by rewrite Hot. }
  assert (G2 : pressure_osr_get s = (Return (PyOSR op), s)).
  { unfold pressure_osr_get. run. by rewrite Hop. }
  assert (G3 : temp_units_get s = (Return ut, s)).
  { unfold temp_units_get. run. by rewrite Hut. }
  assert (G4 : pressure_units_get s = (Return ut, s)) by exact G3.
  split.
  - intros e s' Ht. unfold get_measurements. simpl negb. cbv iota.
    rewrite (bind_return _ _ _ _ _ G1), (bind_return _ _ _ _ _ G2),
      (bind_return _ _ _ _ _ G3), (bind_return _ _ _ _ _ G4).
    by apply bind_raise.
  - intros raw_temp s1 e s' Ht Hp. unfold get_measurements.
    simpl negb. cbv iota.
    rewrite (bind_return _ _ _ _ _ G1), (bind_return _ _ _ _ _ G2),
      (bind_return _ _ _ _ _ G3), (bind_return _ _ _ _ _ G4),
      (bind_return _ _ _ _ _ Ht).
    by apply bind_raise.
Qed.

Lemma get_measurements_conversion_failure_witness :
  get_measurements PyNone PyNone PyNone PyNone
    {| self := default_object deaf_bus []; trace := [] |}
  = (Raise OSError, {| self := default_object deaf_bus []; trace := [] |}) ∧
  get_measurements PyNone PyNone PyNone PyNone
    {| self := default_object temperature_only_bus []; trace := [] |}
  = (Raise OSError,
     {| self := default_object temperature_only_bus [];
        trace := [ EvWrite 0x76 0x50 []; EvSleepMs 1;
                   EvRead 0x76 0x00 3 [Byte.x00; Byte.x00; Byte.x00] ] |}).
Proof.
  split.
  - destruct (get_measurements_conversion_failure
                {| self := default_object deaf_bus []; trace := [] |}
                (OSR.make 0x00 1) (OSR.make 0x00 1) PyNone
                eq_refl eq_refl eq_refl) as (H & _).
    apply H. reflexivity.
  - destruct (get_measurements_conversion_failure
                {| self := default_object temperature_only_bus [];
                   trace := [] |}
                (OSR.make 0x00 1) (OSR.make 0x00 1) PyNone
                eq_refl eq_refl eq_refl) as (_ & H).
    apply (H 0 {| self := default_object temperature_only_bus [];
                  trace := [ EvWrite 0x76 0x50 []; EvSleepMs 1;
                             EvRead 0x76 0x00 3
                               [Byte.x00; Byte.x00; Byte.x00] ] |});
      reflexivity.
Defined.

(** ** Failures of the construction *)

Lemma begin_run (bus : I2C) (addr : Z) (tr : list event) :
  responsive bus →
  ∃ ds : list (byte * byte),
    length ds = 8%nat ∧
    _begin {| self := alloc bus addr; trace := tr |}
    = (Return tt,
       {| self := with_C (word16 <$> ds) (alloc bus addr);
          trace := tr ++ prom_events addr 0 ds |}).
Proof.
  intros Hbus.
  destruct (prom_loop 8 0 {| self := with_C [] (alloc bus addr);
                             trace := tr |} [] Hbus eq_refl)
    as (ds & Hlen & Hrun).
  exists ds. split; [done|].
  unfold _begin, range.
  erewrite bind_return; [exact Hrun | done].
Qed.

(** X14: the constructor validates its settings only after the
    calibration has been read. With an OSR argument that is not a key of
    [OSRs] (0 and [None] included: the constructor has no notion of an
    omitted OSR) it raises [AssertionError] once the eight PROM words have
    been read, and no setting has been stored. *)
Theorem construct_rejects_after_loading (bus : I2C) (addr : Z)
    (temp_osr pressure_osr temp_units pressure_units : pyval)
    (tr : list event) :
  responsive bus →
  OSRs_get temp_osr = None →
  ∃ ds : list (byte * byte),
    length ds = 8%nat ∧
    construct bus addr temp_osr pressure_osr temp_units pressure_units tr
    = (Raise AssertionError,
       {| self := with_C (word16 <$> ds) (alloc bus addr);
          trace := tr ++ prom_events addr 0 ds |}).
Proof.
  intros Hbus Hk.
  destruct (begin_run bus addr tr Hbus) as (ds & Hlen & Hrun).
  exists ds. split; [done|].
  unfold construct, __init__.
  rewrite (bind_return _ _ _ _ _ Hrun).
  apply bind_raise. unfold temp_osr_set. run. by rewrite Hk.
Qed.

Lemma construct_rejects_after_loading_witness :
  ∃ ds : list (byte * byte),
    length ds = 8%nat ∧
    construct example_sensor 0x76 PyNone (PyInt 256) PyNone PyNone []
    = (Raise AssertionError,
       {| self := with_C (word16 <$> ds) (alloc example_sensor 0x76);
          trace := [] ++ prom_events 0x76 0 ds |}).
Proof.
  apply (construct_rejects_after_loading example_sensor 0x76
           PyNone (PyInt 256) PyNone PyNone []).
  - apply sensor_responsive.
  - reflexivity.
Defined.

Lemma prom_loop_fails (n : nat) :
  ∀ (i k : nat) (s : state) (c : list Z),
    (∀ tr j, (i ≤ j < i + n)%nat →
       ∃ data,
         readfrom_mem_reply (i2c (self s)) tr (address (self s))
           (CMD_PROM + Z.of_nat j * 2) 2 = Some data
         ∧ length data = 2%nat) →
    (∀ tr, readfrom_mem_reply (i2c (self s)) tr (address (self s))
             (CMD_PROM + Z.of_nat (i + n) * 2) 2 = None) →
    C (self s) = Some c →
    ∃ ds : list (byte * byte),
      length ds = n ∧
      for_ (map Z.of_nat (seq i (n + S k)))
        (λ i, buf ← readfrom_mem (CMD_PROM + (i * 2)) 2;
              b0 ← byte_at buf 0;
              b1 ← byte_at buf 1;
              C_append (Z.lor (b0 ≪ 8) b1)) s
      = (Raise OSError,
         {| self := with_C (c ++ (word16 <$> ds)) (self s);
            trace := trace s ++ prom_events (address (self s)) i ds |}).
Proof.
  induction n as [|n IH]; intros i k s c Hgood Hbad HC.
  - exists []. split; [done|]. cbn [Nat.add seq map for_].
    rewrite Nat.add_0_r in Hbad.
    apply bind_raise. unfold readfrom_mem. run.
    rewrite Hbad, !app_nil_r, (with_C_same c _ HC), state_eta. done.
  - destruct (Hgood (trace s) i) as (data & Hdata & Hlen); [lia|].
    destruct (two_bytes data Hlen) as (b0 & b1 & ->).
    set (w := Z.lor (byte_val b0 ≪ 8) (byte_val b1)).
    set (s1 := {| self := with_C (c ++ [w]) (self s);
                  trace := trace s ++
                    [EvRead (address (self s))
                       (CMD_PROM + Z.of_nat i * 2) 2 [b0; b1]] |}).
    destruct (IH (S i) k s1 (c ++ [w])) as (ds & Hds & Hrun).
    { intros tr j Hj. apply Hgood. lia. }
    { intros tr. replace (S i + n)%nat with (i + S n)%nat by lia.
      apply Hbad. }
    { done. }
    exists ((b0, b1) :: ds). split; [by rewrite <- Hds|].
    cbn [Nat.add seq map for_].
    assert (Hstep :
      (buf ← readfrom_mem (CMD_PROM + (Z.of_nat i * 2)) 2;
       b0 ← byte_at buf 0;
       b1 ← byte_at buf 1;
       C_append (Z.lor (b0 ≪ 8) b1)) s = (Return tt, s1)).
    { unfold readfrom_mem, byte_at, C_append, log. run.
      rewrite Hdata. simpl. rewrite HC. reflexivity. }
    rewrite (bind_return _ _ _ _ _ Hstep), Hrun.
    subst s1. simpl. by rewrite <- !app_assoc.
Qed.

(** X15: when the PROM word number [bad] cannot be read and the words
    before it can, the constructor raises [OSError] at that word: the
    words before it have been read and appended to [C], no later word is
    read, and no setting is stored. *)
Theorem construct_fails_on_prom_error (bus : I2C) (addr : Z)
    (temp_osr pressure_osr temp_units pressure_units : pyval)
    (tr : list event) (bad : nat) :
  (bad < 8)%nat →
  (∀ tr' j, (j < bad)%nat →
     ∃ data,
       readfrom_mem_reply bus tr' addr (CMD_PROM + Z.of_nat j * 2) 2
       = Some data ∧ length data = 2%nat) →
  (∀ tr', readfrom_mem_reply bus tr' addr (CMD_PROM + Z.of_nat bad * 2) 2
          = None) →
  ∃ ds : list (byte * byte),
    length ds = bad ∧
    construct bus addr temp_osr pressure_osr temp_units pressure_units tr
    = (Raise OSError,
       {| self := with_C (word16 <$> ds) (alloc bus addr);
          trace := tr ++ prom_events addr 0 ds |}).
Proof.
  intros Hbad8 Hgood Hbad.
  destruct (prom_loop_fails bad 0 (7 - bad)
              {| self := with_C [] (alloc bus addr); trace := tr |} [])
    as (ds & Hlen & Hrun).
  { intros tr' j Hj. apply Hgood. lia. }
  { intros tr'. apply Hbad. }
  { done. }
  exists ds. split; [done|].
  unfold construct, __init__. apply bind_raise.
  unfold _begin, range.
  replace 8%nat with (bad + S (7 - bad))%nat by lia.
  erewrite bind_return; [exact Hrun | done].
Qed.

Lemma construct_fails_on_prom_error_witness :
  ∃ ds : list (byte * byte),
    length ds = 3%nat ∧
    construct (faulty_sensor [0; 28986; 25092; 14595] 0xA6) 0x76
      (PyInt 256) (PyInt 256) PyNone PyNone []
    = (Raise OSError,
       {| self := with_C (word16 <$> ds)
                    (alloc (faulty_sensor [0; 28986; 25092; 14595] 0xA6)
                       0x76);
          trace := [] ++ prom_events 0x76 0 ds |}).
Proof.
  apply (construct_fails_on_prom_error
           (faulty_sensor [0; 28986; 25092; 14595] 0xA6) 0x76
           (PyInt 256) (PyInt 256) PyNone PyNone [] 3).
  - lia.
  - intros tr' j Hj. simpl.
    destruct j as [|[|[|j]]]; [eexists; split; reflexivity.. | lia].
  - reflexivity.
Defined.

(** ** The calls of the example *)

Lemma eight_elements {A} (l : list A) :
  length l = 8%nat →
  ∃ x0 x1 x2 x3 x4 x5 x6 x7, l = [x0; x1; x2; x3; x4; x5; x6; x7].
Proof.
  destruct l as [|x0 [|x1 [|x2 [|x3 [|x4 [|x5 [|x6 [|x7 [|? ?]]]]]]]]];
    try discriminate.
  intros _. by exists x0, x1, x2, x3, x4, x5, x6, x7.
Qed.

Lemma default_init_run (bus : I2C) (tr : list event) :
  responsive bus →
  ∃ ds : list (byte * byte),
    length ds = 8%nat ∧
    __init__ (PyInt 256) (PyInt 256) PyNone PyNone
      {| self := alloc bus 0x76; trace := tr |}
    = (Return tt,
       {| self := default_object bus (word16 <$> ds);
          trace := tr ++ prom_events 0x76 0 ds |}).
Proof.
  intros Hbus.
  destruct (begin_run bus 0x76 tr Hbus) as (ds & Hlen & Hrun).
  exists ds. split; [done|].
  unfold __init__. by rewrite (bind_return _ _ _ _ _ Hrun).
Qed.

(** X16: on a responsive bus the three driver calls of the example
    succeed in sequence. The construction reads the eight calibration
    words; the call without arguments returns the raw compensated pair;
    the call with ['celcius'] and ['pascals'] returns the pair as
    [temp / 100] and [pressure / 10] and stores both units. Each pair is
    the compensation of the two raw values read by that call's own
    conversions, and the whole bus traffic is the 8 PROM reads followed
    by the 4 conversions, temperature before pressure in each call. *)
Theorem example_calls_run (bus : I2C) (tr : list event) :
  responsive bus →
  ∃ (ds : list (byte * byte)) (bt1 bp1 bt2 bp2 : byte * byte * byte)
    (T1 P1 T2 P2 : Z) (s' : state),
    length ds = 8%nat ∧
    compensate (word16 <$> ds) (word24 bt1) (word24 bp1) = Some (T1, P1) ∧
    compensate (word16 <$> ds) (word24 bt2) (word24 bp2) = Some (T2, P2) ∧
    example_calls {| self := alloc bus 0x76; trace := tr |}
    = (Return [ (NInt T1, NInt P1);
                (NDiv (NInt T2) (NInt 100), NDiv (NInt P2) (NInt 10)) ],
       s') ∧
    trace s'
    = tr ++ prom_events 0x76 0 ds
      ++ conversion_events 0x76 TEMPERATURE (OSR.make 0x00 1) bt1
      ++ conversion_events 0x76 PRESSURE (OSR.make 0x00 1) bp1
      ++ conversion_events 0x76 TEMPERATURE (OSR.make 0x00 1) bt2
      ++ conversion_events 0x76 PRESSURE (OSR.make 0x00 1) bp2 ∧
    C (self s') = Some (word16 <$> ds) ∧
    _temp_units (self s') = Some (PyStr "celcius") ∧
    _pressure_units (self s') = Some (PyStr "pascals").
Proof.
  intros Hbus.
  destruct (default_init_run bus tr Hbus) as (ds & Hlen & Hinit).
  assert (Hc : length (word16 <$> ds) = 8%nat) by by rewrite length_fmap.
  destruct (eight_elements _ Hc)
    as (c0 & c1 & c2 & c3 & c4 & c5 & c6 & c7 & Ec).
  set (s0 := {| self := default_object bus (word16 <$> ds);
                trace := tr ++ prom_events 0x76 0 ds |}) in *.
  destruct (get_measurements_run s0 (OSR.make 0x00 1) (OSR.make 0x00 1)
              PyNone PyNone PyNone c0 c1 c2 c3 c4 c5 c6 c7)
    as (bt1 & bp1 & H1); try done.
  { simpl. by rewrite Ec. }
  cbv zeta in H1. cbn [truthy after_units] in H1.
  set (r1 := spec_compensation _ _ _ _ _ _ _ _) in H1.
  set (s1 := {| self := self s0; trace := _ |}) in H1.
  destruct (get_measurements_run s1 (OSR.make 0x00 1) (OSR.make 0x00 1)
              PyNone (PyStr "celcius") (PyStr "pascals")
              c0 c1 c2 c3 c4 c5 c6 c7)
    as (bt2 & bp2 & H2); try done.
  { simpl. by rewrite Ec. }
  cbv zeta in H2. cbn [truthy after_units] in H2.
  set (r2 := spec_compensation _ _ _ _ _ _ _ _) in H2.
  set (s2 := {| self := _; trace := _ |}) in H2.
  exists ds, bt1, bp1, bt2, bp2, r1.1, r1.2, r2.1, r2.2, s2.
  split; [done|].
  split; [rewrite Ec, compensate_spec; f_equal; apply surjective_pairing|].
  split; [rewrite Ec, compensate_spec; f_equal; apply surjective_pairing|].
  split; [| split; [| done]].
  - unfold example_calls.
    rewrite (bind_return _ _ _ _ _ Hinit), (bind_return _ _ _ _ _ H1),
      (bind_return _ _ _ _ _ H2).
    reflexivity.
  - subst s2 s1 s0. cbn [trace self address default_object].
    unfold measurement_events. by rewrite <- !app_assoc.
Qed.

Lemma example_calls_run_witness :
  ∃ (ds : list (byte * byte)) (bt1 bp1 bt2 bp2 : byte * byte * byte)
    (T1 P1 T2 P2 : Z) (s' : state),
    length ds = 8%nat ∧
    compensate (word16 <$> ds) (word24 bt1) (word24 bp1) = Some (T1, P1) ∧
    compensate (word16 <$> ds) (word24 bt2) (word24 bp2) = Some (T2, P2) ∧
    example_calls {| self := alloc example_sensor 0x76; trace := [] |}
    = (Return [ (NInt T1, NInt P1);
                (NDiv (NInt T2) (NInt 100), NDiv (NInt P2) (NInt 10)) ],
       s') ∧
    trace s'
    = [] ++ prom_events 0x76 0 ds
      ++ conversion_events 0x76 TEMPERATURE (OSR.make 0x00 1) bt1
      ++ conversion_events 0x76 PRESSURE (OSR.make 0x00 1) bp1
      ++ conversion_events 0x76 TEMPERATURE (OSR.make 0x00 1) bt2
      ++ conversion_events 0x76 PRESSURE (OSR.make 0x00 1) bp2 ∧
    C (self s') = Some (word16 <$> ds) ∧
    _temp_units (self s') = Some (PyStr "celcius") ∧
    _pressure_units (self s') = Some (PyStr "pascals").
Proof.
  apply (example_calls_run example_sensor []).
  apply sensor_responsive.
Defined.

Example example_calls_output :
  (example_calls {| self := alloc example_sensor 0x76; trace := [] |}).1
  = Return [ (NInt 2761, NInt 8486);
             (NDiv (NInt 2761) (NInt 100), NDiv (NInt 8486) (NInt 10)) ].
Proof. vm_compute. reflexivity. Qed.

(** ** The width of the compensation *)

Lemma mul_range (a b A B : Z) :
  - A ≤ a ≤ A → - B ≤ b ≤ B → - (A * B) ≤ a * b ≤ A * B.
Proof. intros. nia. Qed.

Lemma shiftr_range (a n K : Z) :
  0 ≤ n → - (K * 2 ^ n) ≤ a ≤ K * 2 ^ n → - K ≤ a ≫ n ≤ K.
Proof.
  intros Hn [Hlo Hhi]. rewrite Z.shiftr_div_pow2 by done.
  assert (0 < 2 ^ n) by by apply Z.pow_pos_nonneg.
  split.
  - apply Z.div_le_lower_bound; lia.
  - apply Z.div_le_upper_bound; lia.
Qed.

Lemma shiftr_range_nonneg (a n K : Z) :
  0 ≤ n → 0 ≤ a ≤ K * 2 ^ n → 0 ≤ a ≫ n ≤ K.
Proof.
  intros Hn Ha. split; [apply Z.shiftr_nonneg; lia|].
  apply shiftr_range; lia.
Qed.

(** The ranges of every value, for 16-bit calibration words and 24-bit raw
    values. *)
Lemma compensation_ranges
    (c0 c1 c2 c3 c4 c5 c6 c7 raw_temp raw_pressure : Z) :
  u16 c1 → u16 c2 → u16 c3 → u16 c4 → u16 c5 → u16 c6 →
  u24 raw_temp → u24 raw_pressure →
  ∃ vs temp pressure,
    compensate_values [c0; c1; c2; c3; c4; c5; c6; c7] raw_temp raw_pressure
    = Some vs ∧
    compensate [c0; c1; c2; c3; c4; c5; c6; c7] raw_temp raw_pressure
    = Some (temp, pressure) ∧
    Forall i64 vs ∧
    temp ∈ vs ∧ pressure ∈ vs ∧
    - 2 ^ 18 ≤ temp ≤ 2 ^ 18 ∧
    - 2 ^ 27 ≤ pressure ≤ 2 ^ 27.
Proof.
  unfold u16, u24. intros H1 H2 H3 H4 H5 H6 Ht Hp.
  unfold compensate_values, compensate.
  cbn [mbind option_bind lookup list_lookup].
  unfold second_order, second_order_values.
  rewrite !Z.shiftl_mul_pow2 by lia.
  set (dT := raw_temp - c5 * 2 ^ 8).
  assert (HdT : - 2 ^ 24 ≤ dT ≤ 2 ^ 24) by (subst dT; lia).
  set (m6 := dT * c6).
  assert (Hm6 : - 2 ^ 40 ≤ m6 ≤ 2 ^ 40).
  { pose proof (mul_range dT c6 (2 ^ 24) (2 ^ 16)). lia. }
  set (x := m6 ≫ 23).
  assert (Hx : - 2 ^ 17 ≤ x ≤ 2 ^ 17) by (apply shiftr_range; lia).
  replace (x + 2000 - 2000) with x by lia.
  set (dd := dT * dT).
  assert (Hdd : 0 ≤ dd ≤ 2 ^ 48).
  { pose proof (mul_range dT dT (2 ^ 24) (2 ^ 24)).
    pose proof (Z.square_nonneg dT). lia. }
  set (xx := x * x).
  assert (Hxx : 0 ≤ xx ≤ 2 ^ 34).
  { pose proof (mul_range x x (2 ^ 17) (2 ^ 17)).
    pose proof (Z.square_nonneg x). lia. }
  set (m4 := c4 * dT).
  assert (Hm4 : - 2 ^ 40 ≤ m4 ≤ 2 ^ 40).
  { pose proof (mul_range c4 dT (2 ^ 16) (2 ^ 24)). lia. }
  set (m3 := c3 * dT).
  assert (Hm3 : - 2 ^ 40 ≤ m3 ≤ 2 ^ 40).
  { pose proof (mul_range c3 dT (2 ^ 16) (2 ^ 24)). lia. }
  assert (Hs4 : - 2 ^ 33 ≤ m4 ≫ 7 ≤ 2 ^ 33) by (apply shiftr_range; lia).
  assert (Hs3 : - 2 ^ 32 ≤ m3 ≫ 8 ≤ 2 ^ 32) by (apply shiftr_range; lia).
  assert (Hd33 : 0 ≤ dd ≫ 33 ≤ 2 ^ 15)
    by (apply shiftr_range_nonneg; lia).
  assert (Hd37 : 0 ≤ (7 * dd) ≫ 37 ≤ 2 ^ 14)
    by (apply shiftr_range_nonneg; lia).
  assert (Hx1 : 0 ≤ (3 * xx) ≫ 1 ≤ 2 ^ 35)
    by (apply shiftr_range_nonneg; lia).
  assert (Hx3 : 0 ≤ (5 * xx) ≫ 3 ≤ 2 ^ 34)
    by (apply shiftr_range_nonneg; lia).
  assert (Hx4 : 0 ≤ xx ≫ 4 ≤ 2 ^ 30)
    by (apply shiftr_range_nonneg; lia).
  assert (Htail : ∀ T2 OFF2 SENS2 front,
    0 ≤ T2 ≤ 2 ^ 17 → 0 ≤ OFF2 ≤ 2 ^ 38 → 0 ≤ SENS2 ≤ 2 ^ 37 →
    Forall i64 front →
    let S := c1 * 2 ^ 15 + m3 ≫ 8 - SENS2 in
    let O := c2 * 2 ^ 16 + m4 ≫ 7 - OFF2 in
    let temp := x + 2000 - T2 in
    let pressure := (((S * raw_pressure) ≫ 21) - O) ≫ 15 in
    let vs :=
      front ++
      [c2 * 2 ^ 16; m4; m4 ≫ 7; c2 * 2 ^ 16 + m4 ≫ 7;
       c1 * 2 ^ 15; m3; m3 ≫ 8; c1 * 2 ^ 15 + m3 ≫ 8;
       temp; O; S; S * raw_pressure; (S * raw_pressure) ≫ 21;
       ((S * raw_pressure) ≫ 21) - O; pressure] in
    Forall i64 vs ∧ temp ∈ vs ∧ pressure ∈ vs ∧
    - 2 ^ 18 ≤ temp ≤ 2 ^ 18 ∧ - 2 ^ 27 ≤ pressure ≤ 2 ^ 27).
  { intros T2 OFF2 SENS2 front HT2 HOFF2 HSENS2 Hfront S O temp pressure.
    assert (HS : - 2 ^ 38 ≤ S ≤ 2 ^ 38) by (subst S; lia).
    assert (HO : - 2 ^ 39 ≤ O ≤ 2 ^ 39) by (subst O; lia).
    set (SP := S * raw_pressure) in *.
    assert (HSP : - 2 ^ 62 ≤ SP ≤ 2 ^ 62).
    { pose proof (mul_range S raw_pressure (2 ^ 38) (2 ^ 24)). lia. }
    assert (HSP21 : - 2 ^ 41 ≤ SP ≫ 21 ≤ 2 ^ 41)
      by (apply shiftr_range; lia).
    assert (HD15 : - 2 ^ 27 ≤ pressure ≤ 2 ^ 27)
      by (apply shiftr_range; lia).
    assert (HT : - 2 ^ 18 ≤ temp ≤ 2 ^ 18) by (subst temp; lia).
    cbv zeta. split; [| split; [| split]].
    - apply Forall_app. split; [done|].
      unfold i64. repeat (apply Forall_cons; split; [lia|]). constructor.
    - apply elem_of_app. right.
      do 8 apply list_elem_of_further. apply list_elem_of_here.
    - apply elem_of_app. right.
      do 14 apply list_elem_of_further. apply list_elem_of_here.
    - done. }
  assert (HT33 : 0 ≤ 3 * dd ≫ 33 ≤ 2 ^ 17) by lia.
  destruct (Z.ltb_spec (x + 2000) 2000) as [Hlt | Hge].
  - destruct (Z.ltb_spec (x + 2000) (-1500)) as [Hlow | Hmid].
    + set (y := x + 2000 + 1500).
      assert (Hy : - 2 ^ 17 ≤ y ≤ 2 ^ 17) by (subst y; lia).
      set (lo := y * y).
      assert (Hlo : 0 ≤ lo ≤ 2 ^ 34).
      { pose proof (mul_range y y (2 ^ 17) (2 ^ 17)).
        pose proof (Z.square_nonneg y). lia. }
      eexists _, _, _. split; [reflexivity|]. split; [reflexivity|].
      rewrite app_assoc. apply Htail; [lia..|].
      unfold i64. repeat (apply Forall_cons; split; [lia|]). constructor.
    + eexists _, _, _. split; [reflexivity|]. split; [reflexivity|].
      rewrite app_assoc. apply Htail; [lia..|].
      unfold i64. repeat (apply Forall_cons; split; [lia|]). constructor.
  - eexists _, _, _. split; [reflexivity|]. split; [reflexivity|].
    rewrite app_assoc. apply Htail; [lia..|].
    unfold i64. repeat (apply Forall_cons; split; [lia|]). constructor.
Qed.

(** X17: with 16-bit calibration words and 24-bit raw values, which is
    what [_begin] and [_get_ADC_conversion] produce, every value that the
    compensation computes, intermediate products included, lies in the
    signed 64-bit range; the two results are among these values. *)
Theorem compensation_fits_int64
    (c0 c1 c2 c3 c4 c5 c6 c7 raw_temp raw_pressure : Z) :
  u16 c1 → u16 c2 → u16 c3 → u16 c4 → u16 c5 → u16 c6 →
  u24 raw_temp → u24 raw_pressure →
  ∃ vs temp pressure,
    compensate_values [c0; c1; c2; c3; c4; c5; c6; c7] raw_temp raw_pressure
    = Some vs ∧
    compensate [c0; c1; c2; c3; c4; c5; c6; c7] raw_temp raw_pressure
    = Some (temp, pressure) ∧
    temp ∈ vs ∧ pressure ∈ vs ∧
    Forall i64 vs.
Proof.
  intros H1 H2 H3 H4 H5 H6 Ht Hp.
  destruct (compensation_ranges c0 c1 c2 c3 c4 c5 c6 c7 raw_temp
              raw_pressure H1 H2 H3 H4 H5 H6 Ht Hp)
    as (vs & temp & pressure & Hvs & Hc & Hall & HT & HP & _).
  by exists vs, temp, pressure.
Qed.

Lemma u16_example (z : Z) : 0 ≤ z → z < 65536 → u16 z.
Proof. unfold u16. lia. Qed.

Lemma u24_example (z : Z) : 0 ≤ z → z < 16777216 → u24 z.
Proof. unfold u24. lia. Qed.

Lemma compensation_fits_int64_witness :
  ∃ vs temp pressure,
    compensate_values [0; 28986; 25092; 14595; 24979; 30347; 20787; 0]
      8077636 4298154 = Some vs ∧
    compensate [0; 28986; 25092; 14595; 24979; 30347; 20787; 0]
      8077636 4298154 = Some (temp, pressure) ∧
    temp ∈ vs ∧ pressure ∈ vs ∧
    Forall i64 vs.
Proof.
  apply (compensation_fits_int64
           0 28986 25092 14595 24979 30347 20787 0 8077636 4298154);
    first [apply u16_example | apply u24_example]; lia.
Defined.

(** X18: with 16-bit calibration words and 24-bit raw values the
    compensation returns a temperature and a pressure that both lie in
    the signed 32-bit range (within [2^18] and [2^27] of zero). *)
Theorem compensation_results_fit_int32
    (c0 c1 c2 c3 c4 c5 c6 c7 raw_temp raw_pressure : Z) :
  u16 c1 → u16 c2 → u16 c3 → u16 c4 → u16 c5 → u16 c6 →
  u24 raw_temp → u24 raw_pressure →
  ∃ temp pressure,
    compensate [c0; c1; c2; c3; c4; c5; c6; c7] raw_temp raw_pressure
    = Some (temp, pressure) ∧
    i32 temp ∧ i32 pressure ∧
    - 2 ^ 18 ≤ temp ≤ 2 ^ 18 ∧
    - 2 ^ 27 ≤ pressure ≤ 2 ^ 27.
Proof.
  intros H1 H2 H3 H4 H5 H6 Ht Hp.
  destruct (compensation_ranges c0 c1 c2 c3 c4 c5 c6 c7 raw_temp
              raw_pressure H1 H2 H3 H4 H5 H6 Ht Hp)
    as (vs & temp & pressure & _ & Hc & _ & _ & _ & HT & HP).
  exists temp, pressure. unfold i32. repeat split; try done; lia.
Qed.

Lemma compensation_results_fit_int32_witness :
  ∃ temp pressure,
    compensate [0; 28986; 25092; 14595; 24979; 30347; 20787; 0]
      8077636 4298154 = Some (temp, pressure) ∧
    i32 temp ∧ i32 pressure ∧
    - 2 ^ 18 ≤ temp ≤ 2 ^ 18 ∧
    - 2 ^ 27 ≤ pressure ≤ 2 ^ 27.
Proof.
  apply (compensation_results_fit_int32
           0 28986 25092 14595 24979 30347 20787 0 8077636 4298154);
    first [apply u16_example | apply u24_example]; lia.
Defined.
